(** * kaledh4/calc: the news fetcher and the insight generator

    A shallow embedding of [scripts/fetch_news.py] and
    [scripts/generate_insights.py], and the properties of their fallback
    chains and artifact writes.

    - Python objects are the inductive [value]; a [float] is a binary64 of
      [SpecFloat], so that [10000 * (current / 100)] and its [.0f] rendering
      are computed as CPython computes them.
    - Exceptions, the clock, the files and a log of calls, requests and
      completed writes are threaded through a state-and-exception monad; what
      a block did before raising is still there when the exception is caught.
    - The environment variables, the clock readings, the answers of the two
      HTTP endpoints, the initial files and the faults of the disk are the
      fields of a [World]; the theorems hold for every world.
    - A file holds a JSON document as a [value]: the text of the document is
      not modelled, and neither are the bytes of a request body.
    - The built-in [str] that renders [inflation['current']] in the two
      f-strings is a parameter of [generate_insights].
    - The [print] calls write diagnostics to standard output only and are
      left out: standard output is taken to accept every line, so that no
      [print] raises.
    - A [str] is held as its UTF-8 bytes.  [json.dump] is modelled for
      values whose texts UTF-8 can encode ([encodable]); a text with a lone
      surrogate, which the real [json.dump] refuses on a working disk, is
      outside the model of the write. *)

From Stdlib Require Import ZArith List String Ascii Bool Lia.
From Stdlib Require Import Floats.SpecFloat.
From Stdlib Require DecimalString.
Import ListNotations.

#[local] Set Warnings "-register-all".
Local Open Scope string_scope.
Local Open Scope Z_scope.

(* ===================================================================== *)
(** ** Python objects and the primitive operations the scripts use *)
(* ===================================================================== *)

Module Py.

(** The objects that [json.loads] produces and the scripts build: [None],
    [bool], [int], [float] (IEEE binary64, in canonical form), [str] (as its
    UTF-8 bytes), [list] and [dict] (string keys, insertion order, first
    binding wins). *)
Inductive value : Type :=
| JNull
| JBool (b : bool)
| JInt (z : Z)
| JFloat (f : spec_float)
| JStr (s : string)
| JList (l : list value)
| JDict (d : list (string * value)).

(** The exceptions that can occur in the two scripts. *)
Inductive exn : Type :=
| KeyError
| IndexError
| TypeError
| AttributeError
| OverflowError
| FileNotFoundError
| PermissionError
| JSONDecodeError
| URLError
| HTTPError (code : Z)
| OSError.

Inductive outcome (A : Type) : Type :=
| Ret (a : A)
| Raise (e : exn).
Arguments Ret {A} a.
Arguments Raise {A} e.

(** Truth value of an object, as tested by [if x:] and [not x]. *)
Definition truthy (v : value) : bool :=
  match v with
  | JNull => false
  | JBool b => b
  | JInt z => negb (z =? 0)
  | JFloat (S754_zero _) => false
  | JFloat _ => true
  | JStr s => negb (String.eqb s "")
  | JList l => match l with [] => false | _ => true end
  | JDict d => match d with [] => false | _ => true end
  end.

Fixpoint assoc (k : string) (d : list (string * value)) : option value :=
  match d with
  | [] => None
  | (k', v) :: rest => if String.eqb k k' then Some v else assoc k rest
  end.

(** [o.get(key, default)]: only a [dict] has the method. *)
Definition get (o : value) (key : string) (default : value) : outcome value :=
  match o with
  | JDict d => Ret (match assoc key d with Some v => v | None => default end)
  | _ => Raise AttributeError
  end.

(** A continuation byte of a UTF-8 sequence is 10xxxxxx. *)
Definition is_continuation (c : ascii) : bool :=
  let n := Z.of_nat (nat_of_ascii c) in (128 <=? n) && (n <? 192).

(** The characters (code points) of a [str], each one as a [str]. *)
Fixpoint utf8_chars (s : string) : list string :=
  match s with
  | EmptyString => []
  | String c r =>
      match utf8_chars r with
      | String c' g :: gs =>
          if is_continuation c' then String c (String c' g) :: gs
          else String c EmptyString :: String c' g :: gs
      | other => String c EmptyString :: other
      end
  end.

(** [o[key]] with a [str] key. *)
Definition getitem (o : value) (key : string) : outcome value :=
  match o with
  | JDict d => match assoc key d with Some v => Ret v | None => Raise KeyError end
  | _ => Raise TypeError
  end.

(** [o[0]]. *)
Definition getitem0 (o : value) : outcome value :=
  match o with
  | JList l => match l with v :: _ => Ret v | [] => Raise IndexError end
  | JStr s => match utf8_chars s with c :: _ => Ret (JStr c) | [] => Raise IndexError end
  | JDict _ => Raise KeyError
  | _ => Raise TypeError
  end.

(** The elements visited by [for x in o[:n]]. *)
Definition iter_prefix (o : value) (n : nat) : outcome (list value) :=
  match o with
  | JList l => Ret (firstn n l)
  | JStr s => Ret (map JStr (firstn n (utf8_chars s)))
  | _ => Raise TypeError
  end.

(** [len(o)]. *)
Definition len (o : value) : outcome Z :=
  match o with
  | JStr s => Ret (Z.of_nat (List.length (utf8_chars s)))
  | JList l => Ret (Z.of_nat (List.length l))
  | JDict d => Ret (Z.of_nat (List.length d))
  | _ => Raise TypeError
  end.

(** [sep.join(items)]: every item must be a [str]. *)
Fixpoint join (sep : string) (items : list value) : outcome string :=
  match items with
  | [] => Ret ""
  | JStr s :: rest =>
      match rest with
      | [] => Ret s
      | _ => match join sep rest with
             | Ret t => Ret (s ++ sep ++ t)
             | Raise e => Raise e
             end
      end
  | _ :: _ => Raise TypeError
  end.

End Py.
Export Py.

(* ===================================================================== *)
(** ** Binary64 arithmetic and the [.0f] format *)
(* ===================================================================== *)

Module Float64.

Definition prec : Z := 53.
Definition emax : Z := 1024.

(** [float(z)]: the integer rounded to binary64. *)
Definition of_int (z : Z) : spec_float := binary_normalize prec emax z 0 false.

(** The integer itself as an unrounded operand, so that a quotient of two
    integers is rounded once. *)
Definition exact (z : Z) : spec_float :=
  match z with
  | Z0 => S754_zero false
  | Zpos p => S754_finite false p 0
  | Zneg p => S754_finite true p 0
  end.

Definition mul (x y : spec_float) : spec_float := SFmul prec emax x y.
Definition div (x y : spec_float) : spec_float := SFdiv prec emax x y.

Definition is_infinite (x : spec_float) : bool :=
  match x with S754_infinity _ => true | _ => false end.

(** [z / d] for two [int]s: the correctly rounded quotient, or
    [OverflowError] when it is out of the binary64 range. *)
Definition int_truediv (z d : Z) : outcome spec_float :=
  let q := div (exact z) (exact d) in
  if is_infinite q then Raise OverflowError else Ret q.

(** [v / d] for an [int] literal [d]: float division for a [float], true
    division of integers for an [int] or a [bool], [TypeError] otherwise. *)
Definition truediv_int (v : value) (d : Z) : outcome spec_float :=
  match v with
  | JFloat f => Ret (div f (of_int d))
  | JInt z => int_truediv z d
  | JBool b => int_truediv (if b then 1 else 0) d
  | _ => Raise TypeError
  end.

(** The integer nearest to [m * 2^e], ties to even. *)
Definition round_half_even (m : positive) (e : Z) : Z :=
  match e with
  | Zneg p =>
      let d := Z.pow_pos 2 p in
      let q := Z.pos m / d in
      let r := Z.pos m mod d in
      match 2 * r ?= d with
      | Lt => q
      | Gt => q + 1
      | Eq => if Z.even q then q else q + 1
      end
  | _ => Z.pos m * 2 ^ e
  end.

Definition decimal (n : Z) : string :=
  DecimalString.NilZero.string_of_uint (N.to_uint (Z.to_N n)).

(** [format(x, '.0f')]. *)
Definition format_0f (x : spec_float) : string :=
  match x with
  | S754_zero s => if s then "-0" else "0"
  | S754_infinity s => if s then "-inf" else "inf"
  | S754_nan => "nan"
  | S754_finite s m e =>
      (if s then "-" else "") ++ decimal (round_half_even m e)
  end.

(** The literals [2.5], [0.0] and [0.7]. *)
Definition f2_5 : spec_float := S754_finite false 5629499534213120 (-51).
Definition f0_0 : spec_float := S754_zero false.
Definition f0_7 : spec_float := S754_finite false 6305039478318694 (-53).

End Float64.

(* ===================================================================== *)
(** ** [datetime]: naive UTC timestamps and [isoformat] *)
(* ===================================================================== *)

Module Datetime.

(** A [datetime] is its number of microseconds since 1970-01-01T00:00:00. *)
Definition datetime := Z.

Definition timedelta_hours (h : Z) : Z := h * 3600 * 1000000.

(** Proleptic Gregorian date of a day number counted from 1970-01-01. *)
Definition civil_from_days (days : Z) : Z * Z * Z :=
  let z := days + 719468 in
  let era := z / 146097 in
  let doe := z mod 146097 in
  let yoe := (doe - doe / 1460 + doe / 36524 - doe / 146096) / 365 in
  let doy := doe - (365 * yoe + yoe / 4 - yoe / 100) in
  let mp := (5 * doy + 2) / 153 in
  let d := doy - (153 * mp + 2) / 5 + 1 in
  let m := if mp <? 10 then mp + 3 else mp - 9 in
  let y := yoe + era * 400 + (if m <=? 2 then 1 else 0) in
  (y, m, d).

(** [n] in decimal, left-padded with zeros to [width] digits. *)
Definition pad (width : nat) (n : Z) : string :=
  let s := Float64.decimal n in
  String.concat "" (repeat "0" (width - String.length s)) ++ s.

(** [t.isoformat()]: [YYYY-MM-DDTHH:MM:SS], followed by [.ffffff] when the
    microsecond field is not zero. *)
Definition isoformat (t : datetime) : string :=
  let us := t mod 1000000 in
  let secs := t / 1000000 in
  let sod := secs mod 86400 in
  let '(y, m, d) := civil_from_days (secs / 86400) in
  pad 4 y ++ "-" ++ pad 2 m ++ "-" ++ pad 2 d ++ "T" ++
  pad 2 (sod / 3600) ++ ":" ++ pad 2 ((sod mod 3600) / 60) ++ ":" ++
  pad 2 (sod mod 60) ++
  (if us =? 0 then "" else "." ++ pad 6 us).

End Datetime.

(* ===================================================================== *)
(** ** [urllib.parse.quote] *)
(* ===================================================================== *)

Module Urllib.

Definition hex_digit (n : Z) : ascii :=
  ascii_of_nat (Z.to_nat (if n <? 10 then 48 + n else 55 + n)).

(** Letters, digits, [_.-~] and the default safe character [/] are kept. *)
Definition is_safe (c : ascii) : bool :=
  let n := Z.of_nat (nat_of_ascii c) in
  ((48 <=? n) && (n <=? 57)) || ((65 <=? n) && (n <=? 90)) ||
  ((97 <=? n) && (n <=? 122)) ||
  (n =? 95) || (n =? 46) || (n =? 45) || (n =? 126) || (n =? 47).

Fixpoint quote (s : string) : string :=
  match s with
  | EmptyString => EmptyString
  | String c r =>
      if is_safe c then String c (quote r)
      else
        let n := Z.of_nat (nat_of_ascii c) in
        String "%" (String (hex_digit (n / 16)) (String (hex_digit (n mod 16)) (quote r)))
  end.

End Urllib.

(* ===================================================================== *)
(** ** The process: environment, network, clock, files, event log *)
(* ===================================================================== *)

Module Sys.

(** What a path holds: nothing, a file that cannot be opened, a file whose
    content [json.load] rejects (also an empty or partly written file), or
    a JSON document. *)
Inductive file_state : Type :=
| Missing
| Unreadable
| NotJson
| Json (v : value).

(** An HTTP request as handed to [urllib.request.urlopen]. *)
Record request : Type := {
  req_method : string;
  req_url : string;
  req_headers : list (string * string);
  req_data : option value;
  req_timeout : Z
}.

(** [urlopen(...)], [response.read().decode()] and [json.loads] together:
    either one of them raises, or a JSON document comes back. *)
Inductive response : Type :=
| Fails (e : exn)
| Body (v : value).

(** Everything the scripts do not decide themselves.  The answer to a
    request is a function of the request: no script sends the same request
    twice in a run. *)
Record World : Type := {
  environ : string -> option string;
  clock : nat -> Z;                    (* the n-th reading of the UTC clock *)
  urlopen : request -> response;
  disk : string -> file_state;         (* the files when the process starts *)
  makedirs_fails : string -> bool;
  open_w_fails : string -> bool;
  dump_fails : string -> bool
}.

(** The log is ghost state: the scripts do not read it, the theorems do. *)
Inductive event : Type :=
| Called (fn : string) (args : list value)
| Requested (r : request)
| Wrote (path : string) (v : value).

Record State : Type := {
  ticks : nat;
  trace : list event;                  (* oldest first *)
  files : string -> file_state
}.

Definition boot (w : World) : State :=
  {| ticks := O; trace := []; files := disk w |}.

(** Computations: read the world, thread the state, return or raise. *)
Definition M (A : Type) : Type := World -> State -> outcome A * State.

Definition ret {A} (a : A) : M A := fun _ s => (Ret a, s).
Definition bind {A B} (m : M A) (k : A -> M B) : M B :=
  fun w s =>
    match m w s with
    | (Ret a, s') => k a w s'
    | (Raise e, s') => (Raise e, s')
    end.

(** [try: m except ...: h]; what [m] did before raising is kept. *)
Definition try {A} (m : M A) (h : exn -> M A) : M A :=
  fun w s =>
    match m w s with
    | (Ret a, s') => (Ret a, s')
    | (Raise e, s') => h e w s'
    end.

Definition lift {A} (o : outcome A) : M A := fun _ s => (o, s).

Declare Scope py_scope.
Delimit Scope py_scope with py.
Notation "x <- m ;; k" := (bind m (fun x => k))
  (at level 61, m at next level, right associativity) : py_scope.
Notation "m ;; k" := (bind m (fun _ => k))
  (at level 61, right associativity) : py_scope.
Local Open Scope py_scope.

Fixpoint mapM {A B} (f : A -> M B) (l : list A) : M (list B) :=
  match l with
  | [] => ret []
  | a :: rest => b <- f a ;; bs <- mapM f rest ;; ret (b :: bs)
  end.

Fixpoint map_outcome {A B} (f : A -> outcome B) (l : list A) : outcome (list B) :=
  match l with
  | [] => Ret []
  | a :: rest =>
      match f a with
      | Raise e => Raise e
      | Ret b => match map_outcome f rest with
                 | Raise e => Raise e
                 | Ret bs => Ret (b :: bs)
                 end
      end
  end.

Definition emit (e : event) : M unit :=
  fun _ s => (Ret tt, {| ticks := ticks s; trace := trace s ++ [e]; files := files s |}).

(** [os.getenv(name, default)]. *)
Definition lookup_env (w : World) (name default : string) : string :=
  match environ w name with Some v => v | None => default end.

Definition getenv (name default : string) : M string :=
  fun w s => (Ret (lookup_env w name default), s).

(** [datetime.utcnow()]. *)
Definition utcnow : M Datetime.datetime :=
  fun w s => (Ret (clock w (ticks s)),
              {| ticks := S (ticks s); trace := trace s; files := files s |}).

(** Send a request and decode the JSON body of the answer. *)
Definition fetch_json (r : request) : M value :=
  emit (Requested r) ;;
  fun w s => match urlopen w r with
             | Fails e => (Raise e, s)
             | Body v => (Ret v, s)
             end.

(** [with open(path, 'r', encoding='utf-8') as f: json.load(f)]. *)
Definition load_json (path : string) : M value :=
  fun _ s => match files s path with
             | Missing => (Raise FileNotFoundError, s)
             | Unreadable => (Raise PermissionError, s)
             | NotJson => (Raise JSONDecodeError, s)
             | Json v => (Ret v, s)
             end.

Definition set_file (path : string) (f : file_state) (s : State) : State :=
  {| ticks := ticks s; trace := trace s;
     files := fun p => if String.eqb p path then f else files s p |}.

(** [os.makedirs(path, exist_ok=True)]. *)
Definition makedirs (path : string) : M unit :=
  fun w s => if makedirs_fails w path then (Raise OSError, s) else (Ret tt, s).

(** [open(path, 'w', encoding='utf-8')]: the file is created or emptied. *)
Definition open_w (path : string) : M unit :=
  fun w s => if open_w_fails w path then (Raise OSError, s)
             else (Ret tt, set_file path NotJson s).

(** [json.dump(v, f, ensure_ascii=False, indent=2)] into the open file and
    the close at the end of the [with] block.  The faults are those of the
    disk; [v] is taken to hold no text that UTF-8 cannot encode. *)
Definition json_dump (v : value) (path : string) : M unit :=
  (fun w s => if dump_fails w path then (Raise OSError, s)
              else (Ret tt, set_file path (Json v) s)) ;;
  emit (Wrote path v).

Definition nonempty (s : string) : bool := negb (String.eqb s "").

(** Run a script in a fresh process. *)
Definition run {A} (m : M A) (w : World) : outcome A * State := m w (boot w).

End Sys.
Export Sys.
Local Open Scope py_scope.

(* ===================================================================== *)
(** ** scripts/fetch_news.py *)
(* ===================================================================== *)

Module FetchNews.

(** One element of the list comprehension of [fetch_from_gnews]. *)
Definition article_entry (a : value) : M value :=
  title <- lift (get a "title" (JStr "")) ;;
  description <- lift (get a "description" (JStr "")) ;;
  url <- lift (get a "url" (JStr "")) ;;
  source <- lift (get a "source" (JDict [])) ;;
  name <- lift (get source "name" (JStr "GNews")) ;;
  now <- utcnow ;;
  publishedAt <- lift (get a "publishedAt" (JStr (Datetime.isoformat now))) ;;
  ret (JDict [("title", title);
              ("description", description);
              ("url", url);
              ("source", name);
              ("publishedAt", publishedAt)]).

Definition gnews_url (api_key : string) : string :=
  let query := Urllib.quote "اقتصاد OR تضخم OR مالية" in
  "https://gnews.io/api/v4/search?q=" ++ query ++ "&lang=ar&max=10&apikey=" ++ api_key.

Definition gnews_request (api_key : string) : request :=
  {| req_method := "GET"; req_url := gnews_url api_key; req_headers := [];
     req_data := None; req_timeout := 10 |}.

(** Returns the list of normalised articles, or [None] on any exception of
    the [try] block.  The [print] before the block and the one in the
    handler are left out. *)
Definition fetch_from_gnews (api_key : string) : M value :=
  emit (Called "fetch_from_gnews" [JStr api_key]) ;;
  try (data <- fetch_json (gnews_request api_key) ;;
       articles <- lift (get data "articles" (JList [])) ;;
       first10 <- lift (iter_prefix articles 10) ;;
       entries <- mapM article_entry first10 ;;
       ret (JList entries))
      (fun _ => ret JNull).

(** The fixed fallback articles, stamped relative to five clock readings. *)
Definition rss_articles (t1 t2 t3 t4 t5 : Datetime.datetime) : list value :=
  [
    JDict [("title", JStr "نصائح لحماية مدخراتك من التضخم");
           ("description", JStr "تعرف على أفضل الطرق للحفاظ على قيمة أموالك في ظل ارتفاع معدلات التضخم");
           ("url", JStr "https://www.google.com/search?q=نصائح+لحماية+المدخرات+من+التضخم");
           ("source", JStr "Smart Finance");
           ("publishedAt", JStr (Datetime.isoformat t1))];
    JDict [("title", JStr "كيف تحسب التكلفة الحقيقية للقروض");
           ("description", JStr "دليل شامل لفهم تأثير التضخم على قروضك والتكاليف الخفية");
           ("url", JStr "https://www.google.com/search?q=حساب+التكلفة+الحقيقية+للقروض+مع+التضخم");
           ("source", JStr "Smart Finance");
           ("publishedAt", JStr (Datetime.isoformat (t2 - Datetime.timedelta_hours 2)))];
    JDict [("title", JStr "استراتيجيات السداد المبكر للقروض");
           ("description", JStr "متى يكون السداد المبكر مفيداً ومتى يجب تجنبه");
           ("url", JStr "https://www.google.com/search?q=استراتيجيات+السداد+المبكر+للقروض");
           ("source", JStr "Smart Finance");
           ("publishedAt", JStr (Datetime.isoformat (t3 - Datetime.timedelta_hours 5)))];
    JDict [("title", JStr "فهم معدلات التضخم وتأثيرها على دخلك");
           ("description", JStr "تحليل مفصل لكيفية تأثير التضخم على القوة الشرائية للرواتب");
           ("url", JStr "https://www.google.com/search?q=تأثير+التضخم+على+الراتب");
           ("source", JStr "Smart Finance");
           ("publishedAt", JStr (Datetime.isoformat (t4 - Datetime.timedelta_hours 8)))];
    JDict [("title", JStr "أفضل الممارسات لإدارة الميزانية الشخصية");
           ("description", JStr "خطوات عملية لتنظيم مصروفاتك وزيادة مدخراتك");
           ("url", JStr "https://www.google.com/search?q=إدارة+الميزانية+الشخصية");
           ("source", JStr "Smart Finance");
           ("publishedAt", JStr (Datetime.isoformat (t5 - Datetime.timedelta_hours 12)))]
  ].

(** The fallback source; the [print] at its head is left out. *)
Definition fetch_from_rss : M value :=
  emit (Called "fetch_from_rss" []) ;;
  t1 <- utcnow ;;
  t2 <- utcnow ;;
  t3 <- utcnow ;;
  t4 <- utcnow ;;
  t5 <- utcnow ;;
  ret (JList (rss_articles t1 t2 t3 t4 t5)).

Definition fetch_news : M value :=
  api_key <- getenv "NEWS_API_KEY" "" ;;
  news <- (if nonempty api_key then fetch_from_gnews api_key else ret JNull) ;;
  news <- (if negb (truthy news) then fetch_from_rss else ret news) ;;
  if truthy news then
    makedirs "data" ;;
    open_w "data/news.json" ;;
    json_dump news "data/news.json" ;;
    ret news
  else
    ret (JList []).

End FetchNews.

(* ===================================================================== *)
(** ** scripts/generate_insights.py *)
(* ===================================================================== *)

Module GenerateInsights.

Definition FREE_MODELS : list string :=
  ["qwen/qwen-2-7b-instruct:free";
   "google/gemma-2-9b-it:free";
   "meta-llama/llama-3.2-3b-instruct:free";
   "microsoft/phi-3-mini-128k-instruct:free"].

Definition nl : string := String (ascii_of_nat 10) EmptyString.
Definition dq : string := String (ascii_of_nat 34) EmptyString.

Definition openrouter_url : string := "https://openrouter.ai/api/v1/chat/completions".

Definition openrouter_request (prompt api_key : string) (model : value) : request :=
  {| req_method := "POST";
     req_url := openrouter_url;
     req_headers :=
       [("Authorization", "Bearer " ++ api_key);
        ("Content-Type", "application/json");
        ("HTTP-Referer", "https://github.com/kaledh4/calc");
        ("X-Title", "Smart Finance Calculator")];
     req_data :=
       Some (JDict [("model", model);
                    ("messages", JList [JDict [("role", JStr "user");
                                               ("content", JStr prompt)]]);
                    ("temperature", JFloat Float64.f0_7);
                    ("max_tokens", JInt 2000)]);
     req_timeout := 30 |}.

(** Returns [choices[0].message.content] of the answer, or [None] when the
    key is empty or anything in the [try] block raises.  The [print] calls
    outside the block and in its handlers are left out. *)
Definition call_openrouter (prompt api_key : string) (model : value) : M value :=
  emit (Called "call_openrouter" [JStr prompt; JStr api_key; model]) ;;
  if negb (nonempty api_key) then ret JNull
  else
    let model := if truthy model then model else JStr (nth 0 FREE_MODELS "") in
    try (result <- fetch_json (openrouter_request prompt api_key model) ;;
         choices <- lift (getitem result "choices") ;;
         choice <- lift (getitem0 choices) ;;
         message <- lift (getitem choice "message") ;;
         content <- lift (getitem message "content") ;;
         _ <- lift (len content) ;;
         ret content)
        (fun e => match e with
                  | HTTPError _ => ret JNull
                  | _ => ret JNull
                  end).

Definition default_inflation : value :=
  JDict [("current", JFloat Float64.f2_5); ("change", JFloat Float64.f0_0)].

Definition no_news : string := "لا توجد أخبار هامة".

(** The models of the loop in [generate_insights], in priority order. *)
Definition models : list string :=
  ["google/gemini-2.0-flash-exp:free"; "meta-llama/llama-3.2-3b-instruct:free"].

(** The prompt f-string; [current] is the rendering of
    [inflation['current']]. *)
Definition prompt_text (current news_headlines : string) : string :=
  String.concat nl
    [
     "";
     "    أنت محلل مالي خبير ومختصر جداً. لا تستخدم عبارات ترحيبية.";
     "    ";
     "    البيانات:";
     "    - التضخم: " ++ current ++ "%";
     "    - الأخبار: " ++ news_headlines;
     "    ";
     "    المطلوب (إجابة مباشرة فوراً):";
     "    ";
     "    1. 📉 **حقيقة أموالك:**";
     "    احسب بدقة: كم يخسر راتب 10,000 ريال من قوته الشرائية سنوياً بهذا المعدل؟ (أعطني الرقم فقط).";
     "    ";
     "    2. 💡 **الإجراء الفوري:**";
     "    بناءً على الأخبار والتضخم، أعطني نصيحة واحدة محددة جداً (شراء/بيع/سداد) اليوم. لا تقل " ++ dq ++ "راقب" ++ dq ++ " أو " ++ dq ++ "وفر" ++ dq ++ "، كن محدداً.";
     "    ";
     "    3. 🔮 **نظرة المستقبل:**";
     "    في جملة واحدة: هل نتجه لركود أم انتعاش؟ ولماذا (بكلمتين)؟";
     "    ";
     "    4. 🏦 **حكمة القروض:**";
     "    هل الوقت مناسب لأخذ قرض اليوم؟ (نعم/لا) ولماذا حسابياً؟";
     "    "
    ].

(** The fallback f-string; [loss] is [loss] under [.0f], [current3] and
    [current4] are the renderings of [inflation['current']] on its third and
    fourth lines. *)
Definition fallback_text (loss current3 current4 : string) : string :=
  String.concat nl
    [
     "";
     "        1. 📉 **حقيقة أموالك:** راتب 10,000 يخسر " ++ loss ++ " ريال سنوياً من قيمته الحقيقية.";
     "        2. 💡 **الإجراء الفوري:** فعّل مفتاح AI للحصول على نصيحة ذكية مخصصة.";
     "        3. 🔮 **نظرة المستقبل:** التضخم " ++ current3 ++ "% يتطلب حماية مدخراتك بأصول حقيقية.";
     "        4. 🏦 **حكمة القروض:** الفائدة الحقيقية = الفائدة الاسمية - " ++ current4 ++ "%. احسبها جيداً.";
     "        "
    ].

(** [for model in models: insights_text = call_openrouter(...);
     if insights_text: break], started with the current [insights_text]. *)
Fixpoint try_models (prompt api_key : string) (ms : list string)
    (insights_text : value) : M value :=
  match ms with
  | [] => ret insights_text
  | model :: rest =>
      insights_text <- call_openrouter prompt api_key (JStr model) ;;
      if truthy insights_text then ret insights_text
      else try_models prompt api_key rest insights_text
  end.

Definition insights_record (insights_text : value) (now : Datetime.datetime) : value :=
  JDict [("summary", insights_text);
         ("timestamp", JStr (Datetime.isoformat now));
         ("model", JStr "Smart-AI");
         ("language", JStr "ar")].

Section Interpreter.

(** The built-in [str]: how an f-string renders an object with an empty
    format.  Nothing below depends on what it prints. *)
Variable py_str : value -> string.

(** The first [try] block: the inflation reading or the default. *)
Definition load_inflation : M value :=
  try (load_json "data/inflation.json")
      (fun _ => ret default_inflation).

(** The second [try] block: up to three headlines or the placeholder. *)
Definition load_headlines : M string :=
  try (news <- load_json "data/news.json" ;;
       top3 <- lift (iter_prefix news 3) ;;
       titles <- lift (map_outcome (fun n => getitem n "title") top3) ;;
       lift (join " | " titles))
      (fun _ => ret no_news).

(** The fallback branch: the loss estimate and the text built from it. *)
Definition computed_fallback (inflation : value) : M value :=
  current <- lift (getitem inflation "current") ;;
  rate <- lift (Float64.truediv_int current 100) ;;
  let loss := Float64.mul (Float64.of_int 10000) rate in
  current3 <- lift (getitem inflation "current") ;;
  current4 <- lift (getitem inflation "current") ;;
  ret (JStr (fallback_text (Float64.format_0f loss) (py_str current3) (py_str current4))).

Definition generate_insights : M value :=
  api_key <- getenv "OPENROUTER_API_KEY" "" ;;
  inflation <- load_inflation ;;
  news_headlines <- load_headlines ;;
  current <- lift (getitem inflation "current") ;;
  let prompt := prompt_text (py_str current) news_headlines in
  insights_text <- (if nonempty api_key
                    then try_models prompt api_key models JNull
                    else ret JNull) ;;
  insights_text <- (if negb (truthy insights_text)
                    then computed_fallback inflation
                    else ret insights_text) ;;
  now <- utcnow ;;
  let insights := insights_record insights_text now in
  makedirs "data" ;;
  open_w "data/insights.json" ;;
  json_dump insights "data/insights.json" ;;
  ret insights.

End Interpreter.

End GenerateInsights.

(* ===================================================================== *)
(** ** Observing a run *)
(* ===================================================================== *)

Import FetchNews GenerateInsights.

(** [log evs s]: the state [s] after the events [evs] were recorded. *)
Definition log (evs : list event) (s : State) : State :=
  {| ticks := ticks s; trace := trace s ++ evs; files := files s |}.

(** How many times the function [fn] was entered. *)
Fixpoint calls (fn : string) (t : list event) : nat :=
  match t with
  | [] => O
  | Called f _ :: rest => ((if String.eqb f fn then 1 else 0) + calls fn rest)%nat
  | _ :: rest => calls fn rest
  end.

(** The HTTP requests that were sent, oldest first. *)
Fixpoint requests (t : list event) : list request :=
  match t with
  | [] => []
  | Requested r :: rest => r :: requests rest
  | _ :: rest => requests rest
  end.

(** The artifacts that were written completely. *)
Fixpoint writes (t : list event) : list (string * value) :=
  match t with
  | [] => []
  | Wrote p v :: rest => (p, v) :: writes rest
  | _ :: rest => writes rest
  end.

(** The model identifier a request submits. *)
Definition model_of (r : request) : value :=
  match req_data r with
  | Some (JDict d) => match assoc "model" d with Some m => m | None => JNull end
  | _ => JNull
  end.

(** No step of the artifact write fails. *)
Definition writable (w : World) (dir path : string) : bool :=
  negb (makedirs_fails w dir) && negb (open_w_fails w path) && negb (dump_fails w path).

Definition news_key (w : World) : string := lookup_env w "NEWS_API_KEY" "".
Definition model_key (w : World) : string := lookup_env w "OPENROUTER_API_KEY" "".

(** The inflation artifact cannot be opened or is not JSON. *)
Definition absent_or_malformed (f : file_state) : bool :=
  match f with
  | Json _ => false
  | _ => true
  end.

(** The reading [generate_insights] works with: what the inflation file
    holds, or the default when it cannot be loaded. *)
Definition reading_of (f : file_state) : value :=
  match f with
  | Json v => v
  | _ => default_inflation
  end.

Definition reading (w : World) : value :=
  reading_of (disk w "data/inflation.json").

(** The reading has a [current] that can be divided by 100: a [float], a
    [bool], or an [int] whose hundredth is in the binary64 range. *)
Definition percent_ok (v : value) : bool :=
  match getitem v "current" with
  | Ret (JFloat _) => true
  | Ret (JBool _) => true
  | Ret (JInt z) => negb (Float64.is_infinite (Float64.div (Float64.exact z) (Float64.exact 100)))
  | _ => false
  end.

(** What [call_openrouter] returns; it does not depend on the state. *)
Definition reply (w : World) (prompt api_key : string) (model : value) : value :=
  match fst (call_openrouter prompt api_key model w (boot w)) with
  | Ret v => v
  | Raise _ => JNull
  end.

(** What [fetch_from_gnews] returns in a fresh process. *)
Definition gnews_result (w : World) : outcome value :=
  fst (fetch_from_gnews (news_key w) w (boot w)).

(** [needle] occurs in [hay]. *)
Definition contains (hay needle : string) : Prop :=
  exists pre post, hay = pre ++ needle ++ post.

(** A state that differs from [s] by clock readings only. *)
Definition ticked (n : nat) (s : State) : State :=
  {| ticks := (n + ticks s)%nat; trace := trace s; files := files s |}.

(** The events [fetch_from_gnews] records. *)
Definition gnews_events (api_key : string) : list event :=
  [Called "fetch_from_gnews" [JStr api_key]; Requested (gnews_request api_key)].

(** The fallback articles stamped with the clock readings from the [n]-th on. *)
Definition rss_at (w : World) (n : nat) : list value :=
  rss_articles (clock w n) (clock w (1 + n)) (clock w (2 + n))
               (clock w (3 + n)) (clock w (4 + n)).

(** The write at the end of both scripts. *)
Definition persist (dir path : string) (v : value) : M value :=
  makedirs dir ;;
  open_w path ;;
  json_dump v path ;;
  ret v.

(** What the write leaves behind, case by case. *)
Definition persisted (w : World) (dir path : string) (v : value) (s : State)
  : outcome value * State :=
  if makedirs_fails w dir then (Raise OSError, s)
  else if open_w_fails w path then (Raise OSError, s)
  else if dump_fails w path then (Raise OSError, set_file path NotJson s)
  else (Ret v, log [Wrote path v] (set_file path (Json v) (set_file path NotJson s))).

(** The request [call_openrouter] sends for [model]. *)
Definition submitted (prompt api_key : string) (model : value) : request :=
  openrouter_request prompt api_key
    (if truthy model then model else JStr (nth 0 FREE_MODELS "")).

(** The events one call of [call_openrouter] with a key records. *)
Definition attempt (prompt api_key : string) (model : string) : list event :=
  [Called "call_openrouter" [JStr prompt; JStr api_key; JStr model];
   Requested (submitted prompt api_key (JStr model))].

(** The headlines [generate_insights] interpolates into the prompt. *)
Definition headlines (w : World) (s : State) : string :=
  match fst (load_headlines w s) with
  | Ret h => h
  | Raise _ => no_news
  end.

(** The text of the fallback branch for a reading, when it can be computed. *)
Definition fallback_of (py_str : value -> string) (inflation : value) : outcome value :=
  match getitem inflation "current" with
  | Raise e => Raise e
  | Ret c =>
      match Float64.truediv_int c 100 with
      | Raise e => Raise e
      | Ret rate =>
          Ret (JStr (fallback_text
                       (Float64.format_0f (Float64.mul (Float64.of_int 10000) rate))
                       (py_str c) (py_str c)))
      end
  end.

(** The prompt [generate_insights] builds in a fresh process. *)
Definition prompt_of (py_str : value -> string) (w : World) : string :=
  match getitem (reading w) "current" with
  | Ret current => prompt_text (py_str current) (headlines w (boot w))
  | Raise _ => ""
  end.

(** Every source of the news chain fails: the keyed source is skipped, or
    it returns [None] or an empty list. *)
Definition news_sources_fail (w : World) : Prop :=
  nonempty (news_key w) = true ->
  exists v, gnews_result w = Ret v /\ truthy v = false.

(** Every source of the insight chain fails: there is no key, or every
    model returns [None] or an empty text. *)
Definition models_fail (py_str : value -> string) (w : World) : Prop :=
  nonempty (model_key w) = true ->
  forall m, In m models ->
    truthy (reply w (prompt_of py_str w) (model_key w) (JStr m)) = false.

(* ===================================================================== *)
(** ** Sample worlds *)
(* ===================================================================== *)

Module Sample.

(** A rendering of objects for the examples. *)
Definition str (v : value) : string :=
  match v with
  | JFloat _ => "2.5"
  | JStr s => s
  | _ => "None"
  end.

Definition utc (n : nat) : Z := 1700000000000000 + Z.of_nat n.

Definition no_env (name : string) : option string := None.
Definition keys (name : string) : option string := Some "secret".
Definition no_files (path : string) : file_state := Missing.
Definition never (path : string) : bool := false.
Definition always (path : string) : bool := true.

(** No keys, no files, no network, a working disk. *)
Definition offline : World :=
  {| environ := no_env; clock := utc; urlopen := fun _ => Fails URLError;
     disk := no_files; makedirs_fails := never; open_w_fails := never;
     dump_fails := never |}.

(** Both keys set, every request answered with HTTP 500. *)
Definition http_500 : World :=
  {| environ := keys; clock := utc; urlopen := fun _ => Fails (HTTPError 500);
     disk := no_files; makedirs_fails := never; open_w_fails := never;
     dump_fails := never |}.

Definition article : value :=
  JDict [("title", JStr "headline");
         ("url", JStr "https://example.org/a");
         ("source", JDict [("name", JStr "Agency")]);
         ("publishedAt", JStr "2024-01-01T00:00:00Z")].

Definition chat (text : string) : value :=
  JDict [("choices",
          JList [JDict [("message",
                         JDict [("role", JStr "assistant");
                                ("content", JStr text)])]])].

(** Twelve upstream articles, and every model answers. *)
Definition online : World :=
  {| environ := keys; clock := utc;
     urlopen := fun r =>
       if String.eqb (req_method r) "GET"
       then Body (JDict [("totalArticles", JInt 12);
                         ("articles", JList (repeat article 12))])
       else Body (chat "advice");
     disk := no_files; makedirs_fails := never; open_w_fails := never;
     dump_fails := never |}.

(** The first model is refused, the second answers; no articles upstream. *)
Definition second_answers : World :=
  {| environ := keys; clock := utc;
     urlopen := fun r =>
       if String.eqb (req_method r) "GET"
       then Body (JDict [("totalArticles", JInt 0); ("articles", JList [])])
       else match model_of r with
            | JStr "meta-llama/llama-3.2-3b-instruct:free" => Body (chat "advice")
            | _ => Fails (HTTPError 429)
            end;
     disk := no_files; makedirs_fails := never; open_w_fails := never;
     dump_fails := never |}.

(** As [offline], with an inflation file that is not JSON. *)
Definition garbled : World :=
  {| environ := no_env; clock := utc; urlopen := fun _ => Fails URLError;
     disk := fun p => if String.eqb p "data/inflation.json" then NotJson else Missing;
     makedirs_fails := never; open_w_fails := never; dump_fails := never |}.

(** As [online], on a disk where the data directory cannot be made. *)
Definition read_only : World :=
  {| environ := keys; clock := utc; urlopen := urlopen online;
     disk := no_files; makedirs_fails := always; open_w_fails := never;
     dump_fails := never |}.

End Sample.

(* ===================================================================== *)
(** ** Further notions: entries, well-formed articles, successive runs *)
(* ===================================================================== *)

(** The keys of an entry of the news artifact, in the order they are set. *)
Definition entry_keys : list string :=
  ["title"; "description"; "url"; "source"; "publishedAt"].

(** [e] is a [dict] with exactly the five keys of an entry. *)
Definition is_entry (e : value) : Prop :=
  exists d, e = JDict d /\ map fst d = entry_keys.

(** An upstream article the list comprehension of [fetch_from_gnews] can
    process: an object whose [source], when present, is an object too. *)
Definition well_formed_article (a : value) : bool :=
  match a with
  | JDict d =>
      match assoc "source" d with
      | None => true
      | Some (JDict _) => true
      | Some _ => false
      end
  | _ => false
  end.

(** The entry [e] carries the fields of the upstream article [a]: what the
    article has is passed on as it is, what it lacks gets the default. *)
Definition carries (a e : value) : Prop :=
  get a "title" (JStr "") = getitem e "title" /\
  get a "description" (JStr "") = getitem e "description" /\
  get a "url" (JStr "") = getitem e "url" /\
  (exists source,
     get a "source" (JDict []) = Ret source /\
     get source "name" (JStr "GNews") = getitem e "source") /\
  (forall d p, a = JDict d -> assoc "publishedAt" d = Some p ->
     getitem e "publishedAt" = Ret p).

(** The world of a later process: as [w], with the files a run left. *)
Definition with_disk (w : World) (d : string -> file_state) : World :=
  {| environ := environ w; clock := clock w; urlopen := urlopen w;
     disk := d; makedirs_fails := makedirs_fails w;
     open_w_fails := open_w_fails w; dump_fails := dump_fails w |}.

(** The state [s] with other files. *)
Definition refile (f : string -> file_state) (s : State) : State :=
  {| ticks := ticks s; trace := trace s; files := f |}.

(** [result['choices'][0]['message']['content']] of a decoded answer. *)
Definition answer_content (result : value) : outcome value :=
  match getitem result "choices" with
  | Raise e => Raise e
  | Ret choices =>
      match getitem0 choices with
      | Raise e => Raise e
      | Ret choice =>
          match getitem choice "message" with
          | Raise e => Raise e
          | Ret message => getitem message "content"
          end
      end
  end.

(** As [w], with another network. *)
Definition with_network (w : World) (u : request -> response) : World :=
  {| environ := environ w; clock := clock w; urlopen := u;
     disk := disk w; makedirs_fails := makedirs_fails w;
     open_w_fails := open_w_fails w; dump_fails := dump_fails w |}.

(** The [float] that [json.load] gives for the decimal [k / 100]. *)
Definition hundredths (k : Z) : spec_float :=
  Float64.div (Float64.of_int k) (Float64.of_int 100).

(** An integer in decimal, with its sign. *)
Definition signed (k : Z) : string :=
  if k <? 0 then "-" ++ Float64.decimal (- k) else Float64.decimal k.

(** The loss figure of the fallback text for the reading [k / 100]. *)
Definition loss_figure (k : Z) : string :=
  Float64.format_0f
    (Float64.mul (Float64.of_int 10000)
                 (Float64.div (hundredths k) (Float64.of_int 100))).

(** The whole numbers from [lo], [n] of them. *)
Fixpoint zrange (lo : Z) (n : nat) : list Z :=
  match n with
  | O => []
  | S n' => lo :: zrange (lo + 1) n'
  end.

(** The text of a [str], for the examples. *)
Definition text_of (o : outcome value) : string :=
  match o with
  | Ret (JStr s) => s
  | _ => ""
  end.

(** A text that UTF-8 can encode.  A lone surrogate has no UTF-8 form; in
    the bytes of a [str] it would show as ED followed by A0..BF. *)
Fixpoint encodable_text (s : string) : bool :=
  match s with
  | EmptyString => true
  | String c r =>
      match r with
      | EmptyString => true
      | String c' _ =>
          negb ((nat_of_ascii c =? 237)%nat && (160 <=? nat_of_ascii c')%nat)
          && encodable_text r
      end
  end.

(** An object that [json.dump] into a UTF-8 file can write: every text in
    it, keys included, can be encoded. *)
Fixpoint encodable (v : value) : bool :=
  match v with
  | JStr s => encodable_text s
  | JList l => forallb encodable l
  | JDict d => forallb (fun kv => encodable_text (fst kv) && encodable (snd kv)) d
  | _ => true
  end.

(** More sample worlds. *)
Module Cases.

(** The [k]-th upstream article. *)
Definition numbered (k : Z) : value :=
  JDict [("title", JStr (Float64.decimal k));
         ("url", JStr ("https://example.org/" ++ Float64.decimal k));
         ("source", JDict [("name", JStr "Agency")])].

(** Both keys set; twelve upstream articles, numbered 1 to 12, and every
    model answers. *)
Definition twelve : World :=
  {| environ := Sample.keys; clock := Sample.utc;
     urlopen := fun r =>
       if String.eqb (req_method r) "GET"
       then Body (JDict [("totalArticles", JInt 12);
                         ("articles", JList (map numbered (zrange 1 12)))])
       else Body (Sample.chat "advice");
     disk := Sample.no_files; makedirs_fails := Sample.never;
     open_w_fails := Sample.never; dump_fails := Sample.never |}.

(** Both keys set, every request answered with HTTP 500, and an inflation
    file whose [current] is a text. *)
Definition refused_text_reading : World :=
  {| environ := Sample.keys; clock := Sample.utc;
     urlopen := fun _ => Fails (HTTPError 500);
     disk := fun p =>
       if String.eqb p "data/inflation.json"
       then Json (JDict [("current", JStr "2.5"); ("change", JFloat Float64.f0_0)])
       else Missing;
     makedirs_fails := Sample.never; open_w_fails := Sample.never;
     dump_fails := Sample.never |}.

(** No keys; an inflation file that parses but has no [current]. *)
Definition change_only : World :=
  {| environ := Sample.no_env; clock := Sample.utc;
     urlopen := fun _ => Fails URLError;
     disk := fun p =>
       if String.eqb p "data/inflation.json"
       then Json (JDict [("change", JFloat Float64.f0_0)]) else Missing;
     makedirs_fails := Sample.never; open_w_fails := Sample.never;
     dump_fails := Sample.never |}.

(** An upstream article whose source is [null]. *)
Definition no_source : value :=
  JDict [("title", JStr "headline"); ("source", JNull)].

(** As [Sample.online], with a second article that has a [null] source. *)
Definition one_bad_article : World :=
  {| environ := Sample.keys; clock := Sample.utc;
     urlopen := fun r =>
       if String.eqb (req_method r) "GET"
       then Body (JDict [("articles", JList [Sample.article; no_source])])
       else Body (Sample.chat "advice");
     disk := Sample.no_files; makedirs_fails := Sample.never;
     open_w_fails := Sample.never; dump_fails := Sample.never |}.

Definition titled (t : string) : value := JDict [("title", JStr t)].

(** No keys; a news file with four entries, the last one without a title,
    and an inflation file that reads 2.37. *)
Definition with_news : World :=
  {| environ := Sample.no_env; clock := Sample.utc;
     urlopen := fun _ => Fails URLError;
     disk := fun p =>
       if String.eqb p "data/news.json"
       then Json (JList [titled "one"; titled "two"; titled "three"; JDict []])
       else if String.eqb p "data/inflation.json"
       then Json (JDict [("current", JFloat (hundredths 237));
                         ("change", JFloat Float64.f0_0)])
       else Missing;
     makedirs_fails := Sample.never; open_w_fails := Sample.never;
     dump_fails := Sample.never |}.

(** No keys; a news file whose second entry has no title. *)
Definition untitled_news : World :=
  {| environ := Sample.no_env; clock := Sample.utc;
     urlopen := fun _ => Fails URLError;
     disk := fun p =>
       if String.eqb p "data/news.json"
       then Json (JList [titled "one"; JDict []; titled "three"])
       else Missing;
     makedirs_fails := Sample.never; open_w_fails := Sample.never;
     dump_fails := Sample.never |}.

(** No keys; an inflation file that holds an empty object. *)
Definition empty_reading : World :=
  {| environ := Sample.no_env; clock := Sample.utc;
     urlopen := fun _ => Fails URLError;
     disk := fun p =>
       if String.eqb p "data/inflation.json" then Json (JDict []) else Missing;
     makedirs_fails := Sample.never; open_w_fails := Sample.never;
     dump_fails := Sample.never |}.

(** No keys; an inflation file whose [current] is a text. *)
Definition text_reading : World :=
  {| environ := Sample.no_env; clock := Sample.utc;
     urlopen := fun _ => Fails URLError;
     disk := fun p =>
       if String.eqb p "data/inflation.json"
       then Json (JDict [("current", JStr "2.5")]) else Missing;
     makedirs_fails := Sample.never; open_w_fails := Sample.never;
     dump_fails := Sample.never |}.

End Cases.

Arguments rss_articles : simpl never.
Arguments prompt_text : simpl never.
Arguments fallback_text : simpl never.
Arguments Datetime.isoformat : simpl never.
Arguments gnews_url : simpl never.
Arguments Float64.format_0f : simpl never.
Arguments Float64.mul : simpl never.
Arguments Float64.div : simpl never.
Arguments Float64.of_int : simpl never.
Arguments openrouter_request : simpl never.
Arguments String.eqb : simpl nomatch.

(* ===================================================================== *)
(** ** Lemmas on the monad and the observers *)
(* ===================================================================== *)

Lemma calls_app fn t1 t2 : calls fn (t1 ++ t2) = (calls fn t1 + calls fn t2)%nat.
Proof.
  induction t1 as [|e t1 IH]; simpl; [reflexivity|].
  destruct e; rewrite IH; lia.
Qed.

Lemma requests_app t1 t2 : requests (t1 ++ t2) = (requests t1 ++ requests t2)%list.
Proof.
  induction t1 as [|e t1 IH]; simpl; [reflexivity|].
  destruct e; rewrite IH; reflexivity.
Qed.

Lemma writes_app t1 t2 : writes (t1 ++ t2) = (writes t1 ++ writes t2)%list.
Proof.
  induction t1 as [|e t1 IH]; simpl; [reflexivity|].
  destruct e; rewrite IH; reflexivity.
Qed.

Lemma log_nil s : log [] s = s.
Proof. destruct s; unfold log; simpl; rewrite app_nil_r; reflexivity. Qed.

Lemma log_log e1 e2 s : log e2 (log e1 s) = log (e1 ++ e2) s.
Proof. unfold log; simpl; rewrite app_assoc; reflexivity. Qed.

Lemma ticked_0 s : ticked 0 s = s.
Proof. destruct s; reflexivity. Qed.

(** The list comprehension keeps the log and the files, and returns one
    entry per article when no article raises. *)
Lemma article_entry_run a w s :
  (exists v, article_entry a w s = (Ret v, ticked 1 s)) \/
  (exists e, article_entry a w s = (Raise e, s)).
Proof.
  unfold article_entry, bind, lift, utcnow, ret.
  destruct a as [| | | | |l0|d]; try (right; simpl; eauto; fail).
  cbn [get].
  match goal with
  | |- context [get ?src "name" ?dflt] => destruct (get src "name" dflt)
  end; [left|right; eauto].
  unfold ticked. cbn [ticks trace files]. eauto.
Qed.

Lemma ticked_ticked n m s : ticked n (ticked m s) = ticked (n + m) s.
Proof. unfold ticked; simpl; f_equal; lia. Qed.

Lemma mapM_article_entry w l : forall s,
  exists n r,
    mapM article_entry l w s = (r, ticked n s) /\
    forall x, r = Ret x -> List.length x = List.length l.
Proof.
  induction l as [|a l IH]; intros s.
  - exists O, (Ret []). rewrite ticked_0. split; [reflexivity|].
    intros x H. inversion H. reflexivity.
  - cbn [mapM]. unfold bind at 1.
    destruct (article_entry_run a w s) as [[v Hv]|[e He]].
    + rewrite Hv. destruct (IH (ticked 1 s)) as [n [r [E Hr]]].
      unfold bind at 1. rewrite E, ticked_ticked.
      destruct r as [bs|e].
      * exists (n + 1)%nat, (Ret (v :: bs)). split; [reflexivity|].
        intros x H. inversion H. simpl. f_equal. apply Hr. reflexivity.
      * exists (n + 1)%nat, (Raise e). split; [reflexivity|].
        intros x H. discriminate.
    + rewrite He. exists O, (Raise e). rewrite ticked_0. split; [reflexivity|].
      intros x H. discriminate.
Qed.

Lemma firstn_length_le {A} n (l : list A) : (List.length (firstn n l) <= n)%nat.
Proof. rewrite length_firstn. lia. Qed.

Lemma iter_prefix_length o n l :
  iter_prefix o n = Ret l -> (List.length l <= n)%nat.
Proof.
  destruct o; simpl; intros H; try discriminate; inversion H.
  - rewrite length_map. apply firstn_length_le.
  - apply firstn_length_le.
Qed.

(** [fetch_from_gnews] never raises: it returns [None] or a list of at most
    ten entries, it sends one request, and it leaves the files alone. *)
Lemma fetch_from_gnews_run api_key w s :
  exists n v,
    fetch_from_gnews api_key w s = (Ret v, ticked n (log (gnews_events api_key) s)) /\
    (v = JNull \/ exists l, v = JList l /\ (List.length l <= 10)%nat).
Proof.
  unfold fetch_from_gnews, try, fetch_json.
  unfold bind at 1. unfold emit at 1.
  unfold bind at 1. unfold bind at 1. unfold emit at 1.
  cbn [ticks trace files]. rewrite <- app_assoc.
  change {| ticks := ticks s;
            trace := (trace s ++ [Called "fetch_from_gnews" [JStr api_key]]
                              ++ [Requested (gnews_request api_key)])%list;
            files := files s |}
    with (log (gnews_events api_key) s).
  set (s1 := log (gnews_events api_key) s).
  destruct (urlopen w (gnews_request api_key)) as [e|data].
  { exists O, JNull. rewrite ticked_0. split; [reflexivity|left; reflexivity]. }
  unfold bind at 1. unfold lift at 1.
  destruct (get data "articles" (JList [])) as [articles|e].
  2:{ exists O, JNull. rewrite ticked_0. split; [reflexivity|left; reflexivity]. }
  unfold bind at 1. unfold lift at 1.
  destruct (iter_prefix articles 10) as [first10|e] eqn:Hp.
  2:{ exists O, JNull. rewrite ticked_0. split; [reflexivity|left; reflexivity]. }
  assert (Hlen : (List.length first10 <= 10)%nat).
  { exact (iter_prefix_length _ _ _ Hp). }
  unfold bind at 1.
  destruct (mapM_article_entry w first10 s1) as [n [r [E Hr]]].
  rewrite E. destruct r as [entries|e].
  - exists n, (JList entries). split; [reflexivity|].
    right. exists entries. split; [reflexivity|].
    rewrite (Hr entries eq_refl). exact Hlen.
  - exists n, JNull. split; [reflexivity|left; reflexivity].
Qed.

(** A transport or HTTP failure makes [fetch_from_gnews] return [None]. *)
Lemma fetch_from_gnews_fails api_key w s e :
  urlopen w (gnews_request api_key) = Fails e ->
  fetch_from_gnews api_key w s = (Ret JNull, log (gnews_events api_key) s).
Proof.
  intros H. unfold fetch_from_gnews, try, fetch_json, bind, emit.
  rewrite H. unfold log, gnews_events. cbn [ticks trace files ret].
  rewrite <- app_assoc. reflexivity.
Qed.

(** A well-formed answer without articles makes it return the empty list. *)
Lemma fetch_from_gnews_empty api_key w s data :
  urlopen w (gnews_request api_key) = Body data ->
  get data "articles" (JList []) = Ret (JList []) ->
  fetch_from_gnews api_key w s = (Ret (JList []), log (gnews_events api_key) s).
Proof.
  intros H Ha. unfold fetch_from_gnews, try, fetch_json, bind, emit, lift.
  rewrite H, Ha. unfold log, gnews_events. cbn [ticks trace files ret iter_prefix firstn mapM].
  rewrite <- app_assoc. reflexivity.
Qed.

Lemma persist_run w dir path v s :
  persist dir path v w s = persisted w dir path v s.
Proof.
  unfold persist, persisted, bind, makedirs, open_w, json_dump, bind, emit, ret.
  destruct (makedirs_fails w dir); [reflexivity|].
  destruct (open_w_fails w path); [reflexivity|].
  destruct (dump_fails w path); reflexivity.
Qed.

Lemma fetch_from_rss_run w s :
  fetch_from_rss w s =
  (Ret (JList (rss_at w (ticks s))), ticked 5 (log [Called "fetch_from_rss" []] s)).
Proof.
  unfold fetch_from_rss, bind, emit, utcnow, ret, rss_at, ticked, log.
  cbn [ticks trace files]. reflexivity.
Qed.

Lemma rss_at_length w n : List.length (rss_at w n) = 5%nat.
Proof. reflexivity. Qed.

(** [fetch_news] split at its three steps: the keyed source, the fallback,
    the write. *)
Lemma fetch_news_steps w s :
  fetch_news w s =
  let '(r, s1) := if nonempty (news_key w)
                  then fetch_from_gnews (news_key w) w s
                  else (Ret JNull, s) in
  match r with
  | Raise e => (Raise e, s1)
  | Ret news =>
      if truthy news then persist "data" "data/news.json" news w s1
      else persist "data" "data/news.json" (JList (rss_at w (ticks s1))) w
             (ticked 5 (log [Called "fetch_from_rss" []] s1))
  end.
Proof.
  unfold fetch_news. unfold bind at 1. unfold getenv at 1. fold (news_key w).
  unfold bind at 1.
  destruct (nonempty (news_key w)).
  - destruct (fetch_from_gnews (news_key w) w s) as [[news|e] s1]; [|reflexivity].
    unfold bind at 1. destruct (truthy news) eqn:T; cbn [negb].
    + unfold ret at 1. rewrite T. reflexivity.
    + rewrite fetch_from_rss_run. reflexivity.
  - unfold ret at 1. cbn [truthy negb]. unfold bind at 1.
    rewrite fetch_from_rss_run. reflexivity.
Qed.

(** *** The insight generator *)


Lemma call_openrouter_any_state prompt api_key model w :
  nonempty api_key = true ->
  exists v, forall s,
    call_openrouter prompt api_key model w s =
    (Ret v, log [Called "call_openrouter" [JStr prompt; JStr api_key; model];
                 Requested (submitted prompt api_key model)] s).
Proof.
  intros Hk. unfold call_openrouter, submitted. rewrite Hk. cbn [negb].
  unfold try, fetch_json, bind, emit, lift, ret, log. cbn [ticks trace files].
  destruct (urlopen w _) as [e|result].
  { exists JNull. intros s. rewrite <- app_assoc. destruct e; reflexivity. }
  destruct (getitem result "choices") as [choices|e1].
  2:{ exists JNull. intros s. rewrite <- app_assoc. destruct e1; reflexivity. }
  destruct (getitem0 choices) as [choice|e2].
  2:{ exists JNull. intros s. rewrite <- app_assoc. destruct e2; reflexivity. }
  destruct (getitem choice "message") as [message|e3].
  2:{ exists JNull. intros s. rewrite <- app_assoc. destruct e3; reflexivity. }
  destruct (getitem message "content") as [content|e4].
  2:{ exists JNull. intros s. rewrite <- app_assoc. destruct e4; reflexivity. }
  destruct (len content) as [n|e5].
  2:{ exists JNull. intros s. rewrite <- app_assoc. destruct e5; reflexivity. }
  exists content. intros s. rewrite <- app_assoc. reflexivity.
Qed.

(** With a key, [call_openrouter] sends exactly one request, never raises,
    and returns a value that depends on the answer only. *)
Lemma call_openrouter_run prompt api_key model w s :
  nonempty api_key = true ->
  call_openrouter prompt api_key model w s =
  (Ret (reply w prompt api_key model),
   log [Called "call_openrouter" [JStr prompt; JStr api_key; model];
        Requested (submitted prompt api_key model)] s).
Proof.
  intros Hk. destruct (call_openrouter_any_state prompt api_key model w Hk) as [v Hv].
  unfold reply. rewrite !Hv. reflexivity.
Qed.

(** A failed request makes [call_openrouter] return [None]. *)
Lemma reply_fails prompt api_key model w e :
  nonempty api_key = true ->
  urlopen w (submitted prompt api_key model) = Fails e ->
  reply w prompt api_key model = JNull.
Proof.
  intros Hk H. unfold reply, call_openrouter, submitted in *. rewrite Hk. cbn [negb].
  unfold try, fetch_json, bind, emit. rewrite H. destruct e; reflexivity.
Qed.

(** An answer with a text makes [call_openrouter] return that text. *)
Lemma reply_content prompt api_key model w text rest_message rest_choice rest_choices rest :
  nonempty api_key = true ->
  urlopen w (submitted prompt api_key model) =
    Body (JDict (("choices",
                  JList (JDict (("message", JDict (("content", JStr text) :: rest_message))
                                :: rest_choice) :: rest_choices)) :: rest)) ->
  reply w prompt api_key model = JStr text.
Proof.
  intros Hk H. unfold reply, call_openrouter, submitted in *. rewrite Hk. cbn [negb].
  unfold try, fetch_json, bind, emit. rewrite H. reflexivity.
Qed.

(** The loop over the models, when every model of a prefix fails and the
    next one answers: the requests go out in list order and stop there. *)
Lemma try_models_first_success prompt api_key w pre : forall m post acc s,
  nonempty api_key = true ->
  (forall m', In m' pre -> truthy (reply w prompt api_key (JStr m')) = false) ->
  truthy (reply w prompt api_key (JStr m)) = true ->
  try_models prompt api_key (pre ++ m :: post) acc w s =
  (Ret (reply w prompt api_key (JStr m)),
   log (flat_map (attempt prompt api_key) (pre ++ [m])) s).
Proof.
  induction pre as [|m0 pre IH]; intros m post acc s Hk Hpre Hm.
  - cbn [app try_models flat_map]. unfold bind.
    rewrite call_openrouter_run by exact Hk. rewrite Hm.
    unfold attempt. rewrite app_nil_r. reflexivity.
  - cbn [app try_models flat_map]. unfold bind.
    rewrite call_openrouter_run by exact Hk.
    rewrite (Hpre m0) by (left; reflexivity).
    rewrite IH; try assumption.
    + rewrite log_log. reflexivity.
    + intros m' Hin. apply Hpre. right. exact Hin.
Qed.

(** The loop when every model fails: every model is tried, in list order,
    and the value left in [insights_text] is false. *)
Lemma try_models_all_fail prompt api_key w ms : forall acc s,
  nonempty api_key = true ->
  truthy acc = false ->
  (forall m, In m ms -> truthy (reply w prompt api_key (JStr m)) = false) ->
  exists v,
    truthy v = false /\
    try_models prompt api_key ms acc w s =
    (Ret v, log (flat_map (attempt prompt api_key) ms) s).
Proof.
  induction ms as [|m ms IH]; intros acc s Hk Hacc Hms.
  - exists acc. split; [exact Hacc|]. cbn [try_models flat_map]. rewrite log_nil. reflexivity.
  - cbn [try_models flat_map]. unfold bind.
    rewrite call_openrouter_run by exact Hk.
    pose proof (Hms m (or_introl eq_refl)) as Hm. rewrite Hm.
    destruct (IH (reply w prompt api_key (JStr m))
                 (log (attempt prompt api_key m) s) Hk Hm) as [v [Hv E]].
    { intros m' Hin. apply Hms. right. exact Hin. }
    exists v. split; [exact Hv|]. unfold attempt in *. rewrite E, log_log. reflexivity.
Qed.

Lemma load_inflation_run w s :
  load_inflation w s = (Ret (reading_of (files s "data/inflation.json")), s).
Proof.
  unfold load_inflation, try, load_json, reading_of.
  destruct (files s "data/inflation.json"); reflexivity.
Qed.

Lemma load_headlines_run w s :
  load_headlines w s = (Ret (headlines w s), s).
Proof.
  unfold headlines, load_headlines, try, load_json, bind, lift.
  destruct (files s "data/news.json") as [| | |news]; try reflexivity.
  destruct (iter_prefix news 3) as [top3|]; try reflexivity.
  destruct (map_outcome (fun n => getitem n "title") top3) as [titles|]; try reflexivity.
  destruct (join " | " titles); reflexivity.
Qed.

Lemma computed_fallback_run py_str inflation w s :
  computed_fallback py_str inflation w s = (fallback_of py_str inflation, s).
Proof.
  unfold computed_fallback, fallback_of, bind, lift, ret.
  destruct (getitem inflation "current") as [c|]; [|reflexivity].
  destruct (Float64.truediv_int c 100); reflexivity.
Qed.

(** [generate_insights] split at its steps: the two reads, the prompt, the
    loop over the models, the fallback, the write. *)
Lemma generate_insights_steps py_str w s :
  generate_insights py_str w s =
  let inflation := reading_of (files s "data/inflation.json") in
  match getitem inflation "current" with
  | Raise e => (Raise e, s)
  | Ret current =>
      let prompt := prompt_text (py_str current) (headlines w s) in
      let '(r, s1) := if nonempty (model_key w)
                      then try_models prompt (model_key w) models JNull w s
                      else (Ret JNull, s) in
      match r with
      | Raise e => (Raise e, s1)
      | Ret text =>
          if truthy text
          then persist "data" "data/insights.json"
                 (insights_record text (clock w (ticks s1))) w (ticked 1 s1)
          else
            match fallback_of py_str inflation with
            | Raise e => (Raise e, s1)
            | Ret text' =>
                persist "data" "data/insights.json"
                  (insights_record text' (clock w (ticks s1))) w (ticked 1 s1)
            end
      end
  end.
Proof.
  unfold generate_insights. unfold bind at 1. unfold getenv at 1. fold (model_key w).
  unfold bind at 1. rewrite load_inflation_run.
  unfold bind at 1. rewrite load_headlines_run.
  unfold bind at 1. unfold lift at 1.
  cbv zeta.
  destruct (getitem (reading_of (files s "data/inflation.json")) "current") as [current|e];
    [|reflexivity].
  unfold bind at 1.
  destruct (nonempty (model_key w)).
  - destruct (try_models _ _ _ _ w s) as [[text|e] s1]; [|reflexivity].
    unfold bind at 1. destruct (truthy text); cbn [negb].
    + reflexivity.
    + rewrite computed_fallback_run.
      destruct (fallback_of py_str _); reflexivity.
  - unfold ret at 1. cbn [truthy negb]. unfold bind at 1.
    rewrite computed_fallback_run.
    destruct (fallback_of py_str _); reflexivity.
Qed.

(** *** States and the write *)

Lemma log_ticked evs n s : log evs (ticked n s) = ticked n (log evs s).
Proof. reflexivity. Qed.

Lemma persisted_fst w dir path v s :
  fst (persisted w dir path v s) =
  if writable w dir path then Ret v else Raise OSError.
Proof.
  unfold persisted, writable.
  destruct (makedirs_fails w dir); [reflexivity|].
  destruct (open_w_fails w path); [reflexivity|].
  destruct (dump_fails w path); reflexivity.
Qed.

Lemma persisted_trace w dir path v s :
  trace (snd (persisted w dir path v s)) =
  (trace s ++ if writable w dir path then [Wrote path v] else [])%list.
Proof.
  unfold persisted, writable.
  destruct (makedirs_fails w dir); [simpl; rewrite app_nil_r; reflexivity|].
  destruct (open_w_fails w path); [simpl; rewrite app_nil_r; reflexivity|].
  destruct (dump_fails w path); simpl; [rewrite app_nil_r|]; reflexivity.
Qed.

Lemma persisted_files w dir path v s :
  files (snd (persisted w dir path v s)) path =
  if writable w dir path then Json v
  else if makedirs_fails w dir || open_w_fails w path then files s path
  else NotJson.
Proof.
  unfold persisted, writable.
  destruct (makedirs_fails w dir); [reflexivity|].
  destruct (open_w_fails w path); [reflexivity|].
  destruct (dump_fails w path); simpl; rewrite String.eqb_refl; reflexivity.
Qed.

(** *** The news fetcher as a whole *)

(** When the keyed source is skipped or fails, [fetch_news] calls the
    fallback once and hands its five articles to the write. *)
Lemma fetch_news_fallback w :
  news_sources_fail w ->
  exists n evs,
    run fetch_news w =
      persisted w "data" "data/news.json" (JList (rss_at w n))
        (ticked (5 + n) (log (evs ++ [Called "fetch_from_rss" []]) (boot w))) /\
    calls "fetch_from_rss" evs = O /\
    writes evs = [] /\
    (nonempty (news_key w) = false -> n = O /\ evs = []) /\
    (nonempty (news_key w) = true ->
       evs = gnews_events (news_key w) /\
       forall v, gnews_result w = Ret v ->
         fetch_from_gnews (news_key w) w (boot w) = (Ret v, ticked n (log evs (boot w)))).
Proof.
  intros Hfail. unfold run. rewrite fetch_news_steps.
  unfold news_sources_fail, gnews_result in Hfail.
  destruct (nonempty (news_key w)) eqn:Hk.
  - destruct (Hfail eq_refl) as [v [Hv Ht]].
    destruct (fetch_from_gnews_run (news_key w) w (boot w)) as [n [v' [E _]]].
    rewrite E in Hv. simpl in Hv. inversion Hv; subst v'.
    rewrite E. cbv zeta iota beta. rewrite Ht. rewrite persist_run.
    exists n, (gnews_events (news_key w)).
    rewrite log_ticked, ticked_ticked, log_log.
    replace (ticks (ticked n (log (gnews_events (news_key w)) (boot w)))) with n
      by (simpl; lia).
    split; [reflexivity|]. split; [reflexivity|]. split; [reflexivity|].
    split; [discriminate|]. intros _. split; [reflexivity|].
    intros v0 Hv0. unfold gnews_result in Hv0. rewrite E in Hv0. simpl in Hv0. inversion Hv0. subst. reflexivity.
  - cbv zeta iota beta. cbn [truthy]. rewrite persist_run.
    exists O, []. split; [reflexivity|]. split; [reflexivity|]. split; [reflexivity|].
    split; [intros _; split; reflexivity|discriminate].
Qed.

(** *** The insight generator as a whole *)

Lemma writes_attempts prompt api_key ms :
  writes (flat_map (attempt prompt api_key) ms) = [].
Proof. induction ms as [|m ms IH]; [reflexivity|exact IH]. Qed.

Lemma requests_attempts prompt api_key ms :
  requests (flat_map (attempt prompt api_key) ms) =
  map (fun m => submitted prompt api_key (JStr m)) ms.
Proof.
  induction ms as [|m ms IH]; [reflexivity|].
  cbn [flat_map map]. unfold attempt at 1. cbn [app requests]. rewrite IH. reflexivity.
Qed.

(** The loop never raises, sends requests only, and keeps clock and files. *)
Lemma try_models_run prompt api_key w ms : forall acc s,
  nonempty api_key = true ->
  exists v tried,
    try_models prompt api_key ms acc w s =
    (Ret v, log (flat_map (attempt prompt api_key) tried) s).
Proof.
  induction ms as [|m ms IH]; intros acc s Hk.
  - exists acc, []. cbn [try_models flat_map]. rewrite log_nil. reflexivity.
  - cbn [try_models]. unfold bind. rewrite call_openrouter_run by exact Hk.
    destruct (truthy (reply w prompt api_key (JStr m))).
    + exists (reply w prompt api_key (JStr m)), [m].
      cbn [flat_map]. rewrite app_nil_r. reflexivity.
    + destruct (IH (reply w prompt api_key (JStr m))
                   (log (attempt prompt api_key m) s) Hk) as [v [tried E]].
      exists v, (m :: tried). unfold attempt in *. rewrite E, log_log. reflexivity.
Qed.

(** Every run either raises before the write, with nothing written, or
    reaches the write with a record built from some summary. *)
Lemma generate_insights_outcome py_str w :
  exists evs,
    writes evs = [] /\
    (nonempty (model_key w) = false -> evs = []) /\
    ((exists e, run (generate_insights py_str) w = (Raise e, log evs (boot w))) \/
     (exists text,
        run (generate_insights py_str) w =
        persisted w "data" "data/insights.json"
          (insights_record text (clock w 0)) (ticked 1 (log evs (boot w))))).
Proof.
  unfold run. rewrite generate_insights_steps. cbv zeta.
  change (reading_of (files (boot w) "data/inflation.json")) with (reading w).
  destruct (getitem (reading w) "current") as [current|e].
  2:{ exists []. rewrite log_nil. split; [reflexivity|]. split; [reflexivity|]. left. eauto. }
  destruct (nonempty (model_key w)) eqn:Hk.
  - destruct (try_models_run (prompt_text (py_str current) (headlines w (boot w)))
                (model_key w) w models JNull (boot w) Hk) as [text [tried E]].
    rewrite E. exists (flat_map (attempt (prompt_text (py_str current) (headlines w (boot w)))
                                   (model_key w)) tried).
    split; [apply writes_attempts|]. split; [discriminate|].
    destruct (truthy text).
    + right. exists text. rewrite persist_run. reflexivity.
    + destruct (fallback_of py_str (reading w)) as [text'|e].
      * right. exists text'. rewrite persist_run. reflexivity.
      * left. eauto.
  - exists []. rewrite log_nil. split; [reflexivity|]. split; [reflexivity|].
    cbn [truthy]. destruct (fallback_of py_str (reading w)) as [text'|e].
    + right. exists text'. rewrite persist_run. reflexivity.
    + left. eauto.
Qed.

(** When no model answers, the fallback branch decides the summary. *)
Lemma generate_insights_fallback py_str w :
  models_fail py_str w ->
  (exists c, getitem (reading w) "current" = Ret c) ->
  exists evs,
    writes evs = [] /\
    (nonempty (model_key w) = false -> evs = []) /\
    (nonempty (model_key w) = true ->
       evs = flat_map (attempt (prompt_of py_str w) (model_key w)) models) /\
    run (generate_insights py_str) w =
    match fallback_of py_str (reading w) with
    | Ret text =>
        persisted w "data" "data/insights.json"
          (insights_record text (clock w 0)) (ticked 1 (log evs (boot w)))
    | Raise e => (Raise e, log evs (boot w))
    end.
Proof.
  intros Hfail [current Hc]. unfold run. rewrite generate_insights_steps. cbv zeta.
  change (reading_of (files (boot w) "data/inflation.json")) with (reading w).
  unfold models_fail, prompt_of in *. rewrite Hc in *.
  destruct (nonempty (model_key w)) eqn:Hk.
  - destruct (try_models_all_fail (prompt_text (py_str current) (headlines w (boot w)))
                (model_key w) w models JNull (boot w) Hk eq_refl (Hfail eq_refl))
      as [v [Hv E]].
    rewrite E, Hv.
    exists (flat_map (attempt (prompt_text (py_str current) (headlines w (boot w)))
                        (model_key w)) models).
    split; [apply writes_attempts|]. split; [discriminate|]. split; [reflexivity|].
    destruct (fallback_of py_str (reading w)); [rewrite persist_run|]; reflexivity.
  - cbn [truthy]. exists []. rewrite log_nil.
    split; [reflexivity|]. split; [reflexivity|]. split; [discriminate|].
    destruct (fallback_of py_str (reading w)); [rewrite persist_run|]; reflexivity.
Qed.

(** When the models of a prefix fail and the next one answers, its answer
    becomes the summary and no later model is asked. *)
Lemma generate_insights_first_success py_str w pre m post :
  nonempty (model_key w) = true ->
  (exists c, getitem (reading w) "current" = Ret c) ->
  models = (pre ++ m :: post)%list ->
  (forall m', In m' pre ->
     truthy (reply w (prompt_of py_str w) (model_key w) (JStr m')) = false) ->
  truthy (reply w (prompt_of py_str w) (model_key w) (JStr m)) = true ->
  run (generate_insights py_str) w =
  persisted w "data" "data/insights.json"
    (insights_record (reply w (prompt_of py_str w) (model_key w) (JStr m)) (clock w 0))
    (ticked 1 (log (flat_map (attempt (prompt_of py_str w) (model_key w)) (pre ++ [m]))
                   (boot w))).
Proof.
  intros Hk [c Hc] Hms Hpre Hm. unfold run. rewrite generate_insights_steps. cbv zeta.
  change (reading_of (files (boot w) "data/inflation.json")) with (reading w). unfold prompt_of in *. rewrite Hc in *. rewrite Hk, Hms.
  rewrite try_models_first_success by assumption.
  rewrite Hm, persist_run. reflexivity.
Qed.

(** *** The fallback text *)

Lemma fallback_text_nonempty loss current3 current4 :
  fallback_text loss current3 current4 <> "".
Proof. unfold fallback_text, nl. cbn [String.concat append]. discriminate. Qed.

Lemma append_assoc (a b c : string) : (a ++ b) ++ c = a ++ (b ++ c).
Proof. induction a as [|x a IH]; simpl; [reflexivity|rewrite IH; reflexivity]. Qed.

Lemma contains_cons c hay needle :
  contains hay needle -> contains (String c hay) needle.
Proof.
  intros [pre [post H]]. exists (String c pre), post. rewrite H. reflexivity.
Qed.

Lemma contains_prefix a b rest : contains (a ++ b ++ rest) (a ++ b).
Proof. exists "", rest. cbn [append]. rewrite append_assoc. reflexivity. Qed.

(** The loss figure is followed by the currency on the first line. *)
Lemma fallback_text_has_loss loss current3 current4 :
  contains (fallback_text loss current3 current4) (loss ++ " ريال").
Proof.
  unfold fallback_text, nl.
  cbn [String.concat]. rewrite !append_assoc. cbn [append].
  repeat apply contains_cons.
  match goal with
  | |- contains (loss ++ String ?c1 (String ?c2 (String ?c3 (String ?c4 (String ?c5
                   (String ?c6 (String ?c7 (String ?c8 (String ?c9 ?rest))))))))) _ =>
      exact (contains_prefix loss " ريال" rest)
  end.
Qed.

Lemma loss_of_2_5 :
  Float64.format_0f
    (Float64.mul (Float64.of_int 10000) (Float64.div Float64.f2_5 (Float64.of_int 100)))
  = "250".
Proof. vm_compute. reflexivity. Qed.

(** A reading whose [current] can be divided yields a fallback text. *)
Lemma fallback_of_ok py_str v :
  percent_ok v = true ->
  exists loss c,
    getitem v "current" = Ret c /\
    fallback_of py_str v = Ret (JStr (fallback_text loss (py_str c) (py_str c))).
Proof.
  unfold percent_ok, fallback_of. intros H.
  destruct (getitem v "current") as [c|]; [|discriminate].
  destruct c as [|b|z|f| | |]; try discriminate; cbn [Float64.truediv_int].
  - destruct b.
    + set (q := Float64.int_truediv 1 100). vm_compute in q. subst q.
      eexists. eexists. split; reflexivity.
    + set (q := Float64.int_truediv 0 100). vm_compute in q. subst q.
      eexists. eexists. split; reflexivity.
  - unfold Float64.int_truediv.
    destruct (Float64.is_infinite _); [discriminate|].
    eexists. eexists. split; reflexivity.
  - eexists. eexists. split; reflexivity.
Qed.

(** A reading that can be divided lets every run reach the write. *)
Lemma generate_insights_reaches_write py_str w :
  percent_ok (reading w) = true ->
  exists text evs,
    writes evs = [] /\
    run (generate_insights py_str) w =
    persisted w "data" "data/insights.json"
      (insights_record text (clock w 0)) (ticked 1 (log evs (boot w))).
Proof.
  intros Hok. destruct (fallback_of_ok py_str _ Hok) as [loss [c [Hc Hfb]]].
  unfold run. rewrite generate_insights_steps. cbv zeta.
  change (reading_of (files (boot w) "data/inflation.json")) with (reading w).
  rewrite Hc, Hfb.
  destruct (nonempty (model_key w)) eqn:Hk.
  - destruct (try_models_run (prompt_text (py_str c) (headlines w (boot w)))
                (model_key w) w models JNull (boot w) Hk) as [text [tried E]].
    rewrite E. destruct (truthy text).
    + exists text. eexists. split; [apply writes_attempts|].
      rewrite persist_run. reflexivity.
    + eexists. eexists. split; [apply writes_attempts|].
      rewrite persist_run. reflexivity.
  - cbn [truthy]. eexists. exists []. split; [reflexivity|].
    rewrite persist_run, log_nil. reflexivity.
Qed.

(** The list [fetch_from_gnews] returns has one entry for each of the first
    ten upstream articles. *)
Lemma fetch_from_gnews_truncates api_key w s data articles l s' :
  urlopen w (gnews_request api_key) = Body data ->
  get data "articles" (JList []) = Ret (JList articles) ->
  fetch_from_gnews api_key w s = (Ret (JList l), s') ->
  List.length l = Nat.min 10 (List.length articles).
Proof.
  intros H Ha. unfold fetch_from_gnews, try, fetch_json.
  unfold bind at 1. unfold emit at 1.
  unfold bind at 1. unfold bind at 1. unfold emit at 1. rewrite H.
  unfold bind at 1. unfold lift at 1. rewrite Ha.
  unfold bind at 1. unfold lift at 1. unfold iter_prefix.
  unfold bind at 1.
  match goal with
  | |- context [mapM article_entry ?x w ?st] =>
      destruct (mapM_article_entry w x st) as [n [r [E Hr]]]; rewrite E
  end.
  destruct r as [entries|e]; unfold ret; intros Heq; inversion Heq; subst.
  rewrite (Hr l eq_refl). apply length_firstn.
Qed.

Lemma model_of_submitted prompt api_key m :
  nonempty m = true -> model_of (submitted prompt api_key (JStr m)) = JStr m.
Proof.
  intros H. unfold submitted, truthy. fold (nonempty m). rewrite H. reflexivity.
Qed.

(* ===================================================================== *)
(** ** The fallback chain of [fetch_news] *)
(* ===================================================================== *)

(** C7. With a news API key present and the endpoint answering HTTP 500,
    [fetch_from_gnews] returns [None], [fetch_news] falls through to
    [fetch_from_rss] (called exactly once), and what it hands to the write
    and returns is the static list of exactly 5 entries; the only way for the
    run not to return it is a failing write, which raises [OSError]. *)
Theorem http_500_falls_back_to_rss (w : World) :
  nonempty (news_key w) = true ->
  urlopen w (gnews_request (news_key w)) = Fails (HTTPError 500) ->
  gnews_result w = Ret JNull /\
  calls "fetch_from_rss" (trace (snd (run fetch_news w))) = 1%nat /\
  List.length (rss_at w 0) = 5%nat /\
  fst (run fetch_news w) =
    if writable w "data" "data/news.json"
    then Ret (JList (rss_at w 0)) else Raise OSError.
Proof.
  intros Hk H500.
  assert (Hg : fetch_from_gnews (news_key w) w (boot w) =
               (Ret JNull, log (gnews_events (news_key w)) (boot w)))
    by (eapply fetch_from_gnews_fails; exact H500).
  assert (Hfail : news_sources_fail w).
  { intros _. exists JNull. unfold gnews_result. rewrite Hg. split; reflexivity. }
  destruct (fetch_news_fallback w Hfail) as [n [evs [Hrun [_ [_ [_ Hev]]]]]].
  destruct (Hev Hk) as [Hevs Hst]. subst evs.
  assert (Hn : n = O).
  { specialize (Hst JNull). unfold gnews_result in Hst. rewrite Hg in Hst.
    specialize (Hst eq_refl).
    apply (f_equal (fun p => ticks (snd p))) in Hst.
    cbn [snd ticks ticked log boot] in Hst. lia. }
  subst n.
  split; [unfold gnews_result; rewrite Hg; reflexivity|].
  rewrite Hrun, persisted_trace, persisted_fst.
  split; [|split; [reflexivity|reflexivity]].
  rewrite calls_app. destruct (writable w "data" "data/news.json"); reflexivity.
Qed.

(** C3. A well-formed, successful answer with zero articles (an empty
    [articles] list, or none at all) makes [fetch_from_gnews] return the
    empty list, which [fetch_news] treats as a failure: it calls
    [fetch_from_rss] and returns the five fallback articles, not the empty
    list. *)
Theorem empty_answer_counts_as_failure (w : World) (data : value) :
  nonempty (news_key w) = true ->
  urlopen w (gnews_request (news_key w)) = Body data ->
  get data "articles" (JList []) = Ret (JList []) ->
  gnews_result w = Ret (JList []) /\
  calls "fetch_from_rss" (trace (snd (run fetch_news w))) = 1%nat /\
  fst (run fetch_news w) <> Ret (JList []) /\
  fst (run fetch_news w) =
    if writable w "data" "data/news.json"
    then Ret (JList (rss_at w 0)) else Raise OSError.
Proof.
  intros Hk Hbody Hzero.
  assert (Hg : fetch_from_gnews (news_key w) w (boot w) =
               (Ret (JList []), log (gnews_events (news_key w)) (boot w)))
    by (eapply fetch_from_gnews_empty; eassumption).
  assert (Hfail : news_sources_fail w).
  { intros _. exists (JList []). unfold gnews_result. rewrite Hg. split; reflexivity. }
  destruct (fetch_news_fallback w Hfail) as [n [evs [Hrun [_ [_ [_ Hev]]]]]].
  destruct (Hev Hk) as [Hevs Hst]. subst evs.
  assert (Hn : n = O).
  { specialize (Hst (JList [])). unfold gnews_result in Hst. rewrite Hg in Hst.
    specialize (Hst eq_refl).
    apply (f_equal (fun p => ticks (snd p))) in Hst.
    cbn [snd ticks ticked log boot] in Hst. lia. }
  subst n.
  split; [unfold gnews_result; rewrite Hg; reflexivity|].
  rewrite Hrun, persisted_trace, persisted_fst.
  split; [|split; [|reflexivity]].
  - rewrite calls_app. destruct (writable w "data" "data/news.json"); reflexivity.
  - destruct (writable w "data" "data/news.json"); discriminate.
Qed.

(* ===================================================================== *)
(** ** Both chains *)
(* ===================================================================== *)

(** C1, as amended.  When every source of a chain fails, the chain yields
    its fallback, which is neither [None] nor empty.  [fetch_news]: if the
    keyed source is skipped or returns [None] or an empty list, the run hands
    the static list of five articles to the write and returns it.
    [generate_insights]: if there is no key or every model returns [None] or
    an empty text, and the inflation reading has a [current] that can be
    divided by 100, the run hands a record to the write and returns it, and
    the summary of that record is the computed, non-empty fallback text.  In
    both, only a failing write ([OSError]) stands between the fallback and
    the caller.  Without the condition on [current] the fallback text cannot
    be computed and the run raises. *)
Theorem fallback_when_every_source_fails (py_str : value -> string) (w : World) :
  (news_sources_fail w ->
   exists n,
     List.length (rss_at w n) = 5%nat /\
     truthy (JList (rss_at w n)) = true /\
     fst (run fetch_news w) =
       if writable w "data" "data/news.json"
       then Ret (JList (rss_at w n)) else Raise OSError) /\
  (models_fail py_str w ->
   percent_ok (reading w) = true ->
   exists text rec,
     fst (computed_fallback py_str (reading w) w (boot w)) = Ret (JStr text) /\
     text <> "" /\
     truthy (JStr text) = true /\
     getitem rec "summary" = Ret (JStr text) /\
     truthy rec = true /\
     fst (run (generate_insights py_str) w) =
       if writable w "data" "data/insights.json" then Ret rec else Raise OSError).
Proof.
  split.
  - intros Hfail.
    destruct (fetch_news_fallback w Hfail) as [n [evs [Hrun _]]].
    exists n. rewrite Hrun, persisted_fst.
    split; [reflexivity|]. split; reflexivity.
  - intros Hfail Hok.
    destruct (fallback_of_ok py_str _ Hok) as [loss [c [Hc Hfb]]].
    destruct (generate_insights_fallback py_str w Hfail (ex_intro _ c Hc))
      as [evs [_ [_ [_ Hrun]]]].
    rewrite Hfb in Hrun.
    exists (fallback_text loss (py_str c) (py_str c)).
    exists (insights_record (JStr (fallback_text loss (py_str c) (py_str c))) (clock w 0)).
    rewrite computed_fallback_run, Hfb, Hrun, persisted_fst.
    split; [reflexivity|].
    split; [apply fallback_text_nonempty|].
    split; [|split; [reflexivity|split; reflexivity]].
    cbn [truthy].
    destruct (String.eqb_spec (fallback_text loss (py_str c) (py_str c)) "") as [E|E];
      [exfalso; exact (fallback_text_nonempty _ _ _ E)|reflexivity].
Qed.

(** C4, as amended.  Without a key the network source is not attempted.
    With an empty NEWS_API_KEY, [fetch_news] never enters [fetch_from_gnews]
    and sends no request, and still hands the five fallback articles to the
    write.  With an empty OPENROUTER_API_KEY, [generate_insights] never
    enters [call_openrouter] and sends no request, whatever the reading; when
    the reading has a [current] that can be divided by 100, it still hands a
    record to the write, whose summary is a non-empty text.  Only a failing
    write keeps either result from the caller.  Without the condition on
    [current] the keyless run raises and produces nothing. *)
Theorem absent_key_skips_network (py_str : value -> string) (w : World) :
  (news_key w = "" ->
   calls "fetch_from_gnews" (trace (snd (run fetch_news w))) = 0%nat /\
   requests (trace (snd (run fetch_news w))) = [] /\
   fst (run fetch_news w) =
     if writable w "data" "data/news.json"
     then Ret (JList (rss_at w 0)) else Raise OSError) /\
  (model_key w = "" ->
   calls "call_openrouter" (trace (snd (run (generate_insights py_str) w))) = 0%nat /\
   requests (trace (snd (run (generate_insights py_str) w))) = [] /\
   (percent_ok (reading w) = true ->
    exists text rec,
      text <> "" /\
      getitem rec "summary" = Ret (JStr text) /\
      fst (run (generate_insights py_str) w) =
        if writable w "data" "data/insights.json" then Ret rec else Raise OSError)).
Proof.
  split.
  - intros Hk.
    assert (Hne : nonempty (news_key w) = false) by (rewrite Hk; reflexivity).
    assert (Hfail : news_sources_fail w).
    { intros H. rewrite Hne in H. discriminate. }
    destruct (fetch_news_fallback w Hfail) as [n [evs [Hrun [_ [_ [Hev _]]]]]].
    destruct (Hev Hne) as [-> ->].
    rewrite Hrun, persisted_trace, persisted_fst, calls_app, requests_app.
    destruct (writable w "data" "data/news.json"); repeat split; reflexivity.
  - intros Hk.
    assert (Hne : nonempty (model_key w) = false) by (rewrite Hk; reflexivity).
    destruct (generate_insights_outcome py_str w) as [evs [_ [Hev Hrun]]].
    rewrite (Hev Hne) in Hrun. rewrite log_nil in Hrun.
    assert (Hfail : models_fail py_str w).
    { intros H. rewrite Hne in H. discriminate. }
    split; [|split].
    + destruct Hrun as [[e Hrun]|[text Hrun]]; rewrite Hrun; [reflexivity|].
      rewrite persisted_trace, calls_app.
      destruct (writable w "data" "data/insights.json"); reflexivity.
    + destruct Hrun as [[e Hrun]|[text Hrun]]; rewrite Hrun; [reflexivity|].
      rewrite persisted_trace, requests_app.
      destruct (writable w "data" "data/insights.json"); reflexivity.
    + intros Hok.
      destruct (fallback_of_ok py_str _ Hok) as [loss [c [Hc Hfb]]].
      destruct (generate_insights_fallback py_str w Hfail (ex_intro _ c Hc))
        as [evs' [_ [_ [_ Hrun']]]].
      rewrite Hfb in Hrun'.
      exists (fallback_text loss (py_str c) (py_str c)).
      exists (insights_record (JStr (fallback_text loss (py_str c) (py_str c))) (clock w 0)).
      rewrite Hrun', persisted_fst.
      split; [apply fallback_text_nonempty|]. split; reflexivity.
Qed.

(* ===================================================================== *)
(** ** The insight generator *)
(* ===================================================================== *)

Lemma fallback_of_2_5 py_str v :
  getitem v "current" = Ret (JFloat Float64.f2_5) ->
  fallback_of py_str v =
  Ret (JStr (fallback_text "250" (py_str (JFloat Float64.f2_5))
                           (py_str (JFloat Float64.f2_5)))).
Proof.
  intros Hc. unfold fallback_of. rewrite Hc. cbn [Float64.truediv_int].
  rewrite loss_of_2_5. reflexivity.
Qed.

(** Without a key the summary is what the fallback branch computes. *)
Lemma generate_insights_without_key py_str w text :
  model_key w = "" ->
  fallback_of py_str (reading w) = Ret text ->
  fst (run (generate_insights py_str) w) =
    if writable w "data" "data/insights.json"
    then Ret (insights_record text (clock w 0)) else Raise OSError.
Proof.
  intros Hk Hfb.
  assert (Hfail : models_fail py_str w).
  { intros H. rewrite Hk in H. discriminate. }
  assert (Hc : exists c, getitem (reading w) "current" = Ret c).
  { unfold fallback_of in Hfb.
    destruct (getitem (reading w) "current") as [c|]; [eauto|discriminate]. }
  destruct (generate_insights_fallback py_str w Hfail Hc) as [evs [_ [_ [_ Hrun]]]].
  rewrite Hfb in Hrun. rewrite Hrun, persisted_fst. reflexivity.
Qed.

(** C5. With [current = 2.5] in the inflation reading and no model-API key,
    the summary is the fallback text, whose loss figure is
    [10000 * (2.5 / 100)] in binary64 under [.0f], that is 250: the text
    contains "250 ريال". *)
Theorem fallback_text_shows_250 (py_str : value -> string) (w : World) :
  model_key w = "" ->
  getitem (reading w) "current" = Ret (JFloat Float64.f2_5) ->
  exists text,
    contains text "250 ريال" /\
    fst (computed_fallback py_str (reading w) w (boot w)) = Ret (JStr text) /\
    fst (run (generate_insights py_str) w) =
      if writable w "data" "data/insights.json"
      then Ret (insights_record (JStr text) (clock w 0)) else Raise OSError.
Proof.
  intros Hk Hc.
  pose proof (fallback_of_2_5 py_str _ Hc) as Hfb.
  exists (fallback_text "250" (py_str (JFloat Float64.f2_5))
                        (py_str (JFloat Float64.f2_5))).
  split; [|split].
  - exact (fallback_text_has_loss "250" _ _).
  - rewrite computed_fallback_run. exact Hfb.
  - exact (generate_insights_without_key py_str w _ Hk Hfb).
Qed.

(** C6, as amended.  When the inflation file is absent, cannot be opened or
    is not JSON, the first [try] block yields the default reading,
    [current = 2.5] and [change = 0.0], and the run goes on with it to the
    write without raising: the prompt is built from 2.5, the summary computed
    without a key is the fallback text for 2.5, and the run returns a record,
    unless the write itself fails with [OSError].  A file that parses is used
    as it is, whatever it holds: no default stands in for it. *)
Theorem missing_inflation_uses_default (py_str : value -> string) (w : World) :
  absent_or_malformed (disk w "data/inflation.json") = true ->
  load_inflation w (boot w) = (Ret default_inflation, boot w) /\
  getitem default_inflation "current" = Ret (JFloat Float64.f2_5) /\
  getitem default_inflation "change" = Ret (JFloat Float64.f0_0) /\
  prompt_of py_str w =
    prompt_text (py_str (JFloat Float64.f2_5)) (headlines w (boot w)) /\
  (model_key w = "" ->
   fst (run (generate_insights py_str) w) =
     if writable w "data" "data/insights.json"
     then Ret (insights_record
                 (JStr (fallback_text "250" (py_str (JFloat Float64.f2_5))
                                      (py_str (JFloat Float64.f2_5))))
                 (clock w 0))
     else Raise OSError) /\
  exists text,
    fst (run (generate_insights py_str) w) =
      if writable w "data" "data/insights.json"
      then Ret (insights_record text (clock w 0)) else Raise OSError.
Proof.
  intros Hbad.
  assert (Hr : reading w = default_inflation).
  { unfold reading. destruct (disk w "data/inflation.json"); try reflexivity; discriminate. }
  split.
  { rewrite load_inflation_run. change (files (boot w)) with (disk w).
    fold (reading w). rewrite Hr. reflexivity. }
  split; [reflexivity|]. split; [reflexivity|].
  split; [unfold prompt_of; rewrite Hr; reflexivity|].
  split.
  { intros Hk. apply generate_insights_without_key; [exact Hk|].
    apply fallback_of_2_5. rewrite Hr. reflexivity. }
  assert (Hok : percent_ok (reading w) = true) by (rewrite Hr; reflexivity).
  destruct (generate_insights_reaches_write py_str w Hok) as [text [evs [_ Hrun]]].
  exists text. rewrite Hrun, persisted_fst. reflexivity.
Qed.

(** C8. The loop of [generate_insights] submits the models in list order
    and stops at the first non-empty text.  Split the list at any point: if
    every model before the point returns [None] or an empty text, and the
    model at the point (if there is one) returns a non-empty text, then the
    requests sent are, in order, those for the models before the point and
    the one at the point, and none for a later model; the text of the model
    at the point is the summary. *)
Theorem models_tried_in_order (py_str : value -> string) (w : World)
    (pre rest : list string) :
  nonempty (model_key w) = true ->
  (exists c, getitem (reading w) "current" = Ret c) ->
  models = (pre ++ rest)%list ->
  (forall m, In m pre ->
     truthy (reply w (prompt_of py_str w) (model_key w) (JStr m)) = false) ->
  (forall m, hd_error rest = Some m ->
     truthy (reply w (prompt_of py_str w) (model_key w) (JStr m)) = true) ->
  map model_of (requests (trace (snd (run (generate_insights py_str) w)))) =
    map JStr (pre ++ firstn 1 rest) /\
  (forall m, hd_error rest = Some m ->
     fst (run (generate_insights py_str) w) =
       if writable w "data" "data/insights.json"
       then Ret (insights_record
                   (reply w (prompt_of py_str w) (model_key w) (JStr m)) (clock w 0))
       else Raise OSError).
Proof.
  intros Hk Hc Hms Hpre Hrest.
  assert (Hmodel : forall ms, incl ms models ->
            map model_of (map (fun m => submitted (prompt_of py_str w) (model_key w) (JStr m)) ms)
            = map JStr ms).
  { induction ms as [|m ms IH]; intros Hin; [reflexivity|].
    cbn [map]. rewrite IH by (intros x Hx; apply Hin; right; exact Hx).
    rewrite model_of_submitted; [reflexivity|].
    destruct (Hin m (or_introl eq_refl)) as [<-|[<-|[]]]; reflexivity. }
  destruct rest as [|m post].
  - rewrite app_nil_r in Hms. subst pre. cbn [firstn]. rewrite app_nil_r.
    split; [|intros m Hm; discriminate].
    assert (Hfail : models_fail py_str w) by (intros _; exact Hpre).
    destruct (generate_insights_fallback py_str w Hfail Hc) as [evs [_ [_ [Hev Hrun]]]].
    rewrite (Hev Hk) in Hrun. rewrite Hrun.
    destruct (fallback_of py_str (reading w)).
    + rewrite persisted_trace, requests_app, map_app.
      cbn [ticked log boot trace app]. rewrite requests_attempts.
      rewrite Hmodel by apply incl_refl.
      destruct (writable w "data" "data/insights.json"); cbn [requests map];
        rewrite app_nil_r; reflexivity.
    + cbn [snd log boot trace app]. rewrite requests_attempts.
      apply Hmodel. apply incl_refl.
  - pose proof (Hrest m eq_refl) as Hm.
    rewrite (generate_insights_first_success py_str w pre m post Hk Hc Hms Hpre Hm).
    rewrite persisted_trace, persisted_fst, requests_app, map_app.
    cbn [ticked log boot trace app firstn]. rewrite requests_attempts.
    split.
    + rewrite Hmodel.
      * destruct (writable w "data" "data/insights.json"); cbn [requests map];
          rewrite app_nil_r; reflexivity.
      * rewrite Hms. intros x Hx. apply in_app_or in Hx. apply in_or_app.
        destruct Hx as [Hx|[<-|[]]]; [left; exact Hx|right; left; reflexivity].
    + intros m0 Hm0. inversion Hm0; subst. reflexivity.
Qed.

(* ===================================================================== *)
(** ** The artifact write *)
(* ===================================================================== *)

(** Every run of [fetch_news] reaches the write with a non-empty list. *)
Lemma fetch_news_outcome w :
  exists n evs l,
    writes evs = [] /\
    l <> [] /\
    run fetch_news w =
    persisted w "data" "data/news.json" (JList l) (ticked n (log evs (boot w))).
Proof.
  unfold run. rewrite fetch_news_steps.
  destruct (nonempty (news_key w)).
  - destruct (fetch_from_gnews_run (news_key w) w (boot w)) as [n [v [E Hv]]].
    rewrite E. cbv zeta iota beta.
    destruct (truthy v) eqn:Ht.
    + destruct Hv as [->|[l [-> _]]]; [discriminate|].
      exists n, (gnews_events (news_key w)), l.
      split; [reflexivity|]. split; [destruct l; [discriminate|congruence]|].
      apply persist_run.
    + exists (5 + n)%nat, (gnews_events (news_key w) ++ [Called "fetch_from_rss" []])%list.
      eexists. split; [reflexivity|]. split; [|rewrite persist_run, log_ticked,
        ticked_ticked, log_log; reflexivity].
      unfold rss_at, rss_articles. discriminate.
  - cbv zeta iota beta. cbn [truthy].
    exists 5%nat, [Called "fetch_from_rss" []]. eexists.
    split; [reflexivity|]. split; [|rewrite persist_run; reflexivity].
    unfold rss_at, rss_articles. discriminate.
Qed.

(** C9. A failing artifact write ([os.makedirs], [open] or [json.dump]
    raising) is not caught in either script: the run ends with an exception
    and no artifact has been written completely; the file is as it was
    before the run, or is left without a complete document.  In
    [fetch_news] the exception is always the write's [OSError]; in
    [generate_insights] it is the write's whenever the steps before the
    write do not raise, which a reading with a dividable [current]
    guarantees. *)
Theorem write_failure_propagates (py_str : value -> string) (w : World) :
  (writable w "data" "data/news.json" = false ->
   fst (run fetch_news w) = Raise OSError /\
   writes (trace (snd (run fetch_news w))) = [] /\
   (files (snd (run fetch_news w)) "data/news.json" = disk w "data/news.json" \/
    files (snd (run fetch_news w)) "data/news.json" = NotJson)) /\
  (writable w "data" "data/insights.json" = false ->
   (exists e, fst (run (generate_insights py_str) w) = Raise e) /\
   (percent_ok (reading w) = true ->
    fst (run (generate_insights py_str) w) = Raise OSError) /\
   writes (trace (snd (run (generate_insights py_str) w))) = [] /\
   (files (snd (run (generate_insights py_str) w)) "data/insights.json"
      = disk w "data/insights.json" \/
    files (snd (run (generate_insights py_str) w)) "data/insights.json" = NotJson)).
Proof.
  split.
  - intros Hw.
    destruct (fetch_news_outcome w) as [n [evs [l [Hevs [_ Hrun]]]]].
    rewrite Hrun, persisted_fst, persisted_trace, persisted_files, Hw, writes_app.
    split; [reflexivity|]. split.
    + cbn [ticked log boot trace app writes]. rewrite Hevs. reflexivity.
    + destruct (makedirs_fails w "data" || open_w_fails w "data/news.json");
        [left; reflexivity|right; reflexivity].
  - intros Hw.
    destruct (generate_insights_outcome py_str w) as [evs [Hevs [_ Hrun]]].
    split; [|split; [|split]].
    + destruct Hrun as [[e Hrun]|[text Hrun]]; rewrite Hrun.
      * exists e. reflexivity.
      * exists OSError. rewrite persisted_fst, Hw. reflexivity.
    + intros Hok.
      destruct (generate_insights_reaches_write py_str w Hok) as [text [evs' [_ Hrun']]].
      rewrite Hrun', persisted_fst, Hw. reflexivity.
    + destruct Hrun as [[e Hrun]|[text Hrun]]; rewrite Hrun.
      * cbn [snd log boot trace app]. exact Hevs.
      * rewrite persisted_trace, Hw, writes_app.
        cbn [ticked log boot trace app writes]. rewrite Hevs. reflexivity.
    + destruct Hrun as [[e Hrun]|[text Hrun]]; rewrite Hrun.
      * left. reflexivity.
      * rewrite persisted_files, Hw.
        destruct (makedirs_fails w "data" || open_w_fails w "data/insights.json");
          [left; reflexivity|right; reflexivity].
Qed.

(** C10. Whatever produced the summary, a model or the fallback branch, the
    record that [generate_insights] writes and returns has
    [model = 'Smart-AI'] and [language = 'ar']: this holds of the record a
    run returns, which is then the content of data/insights.json and the only
    artifact written, and of every artifact a run writes.  'Smart-AI' is the
    identifier of no model the script can ask. *)
Theorem record_labels_are_constant (py_str : value -> string) (w : World) :
  (forall rec,
     fst (run (generate_insights py_str) w) = Ret rec ->
     getitem rec "model" = Ret (JStr "Smart-AI") /\
     getitem rec "language" = Ret (JStr "ar") /\
     files (snd (run (generate_insights py_str) w)) "data/insights.json" = Json rec /\
     writes (trace (snd (run (generate_insights py_str) w))) =
       [("data/insights.json", rec)]) /\
  (forall path v,
     In (path, v) (writes (trace (snd (run (generate_insights py_str) w)))) ->
     path = "data/insights.json" /\
     getitem v "model" = Ret (JStr "Smart-AI") /\
     getitem v "language" = Ret (JStr "ar")) /\
  ~ In "Smart-AI" models /\
  ~ In "Smart-AI" FREE_MODELS.
Proof.
  destruct (generate_insights_outcome py_str w) as [evs [Hevs [_ Hrun]]].
  split; [|split; [|split]].
  - intros rec Hrec.
    destruct Hrun as [[e Hrun]|[text Hrun]]; rewrite Hrun in *; [discriminate|].
    rewrite persisted_fst in Hrec. rewrite persisted_files, persisted_trace, writes_app.
    destruct (writable w "data" "data/insights.json"); [|discriminate].
    inversion Hrec; subst rec.
    split; [reflexivity|]. split; [reflexivity|]. split; [reflexivity|].
    cbn [ticked log boot trace app writes]. rewrite Hevs. reflexivity.
  - intros path v Hin.
    destruct Hrun as [[e Hrun]|[text Hrun]]; rewrite Hrun in Hin.
    + cbn [snd log boot trace app] in Hin. rewrite Hevs in Hin. destruct Hin.
    + rewrite persisted_trace, writes_app in Hin.
      cbn [ticked log boot trace app] in Hin. rewrite Hevs in Hin.
      destruct (writable w "data" "data/insights.json"); cbn [app writes] in Hin.
      * destruct Hin as [Hin|[]]. inversion Hin; subst.
        split; [reflexivity|]. split; reflexivity.
      * destruct Hin.
  - intros [H|[H|[]]]; discriminate.
  - intros [H|[H|[H|[H|[]]]]]; discriminate.
Qed.

(* ===================================================================== *)
(** ** The theorems at work on the sample worlds *)
(* ===================================================================== *)

Lemma http_500_falls_back_to_rss_witness :
  nonempty (news_key Sample.http_500) = true /\
  urlopen Sample.http_500 (gnews_request (news_key Sample.http_500)) = Fails (HTTPError 500) /\
  gnews_result Sample.http_500 = Ret JNull /\
  calls "fetch_from_rss" (trace (snd (run fetch_news Sample.http_500))) = 1%nat /\
  List.length (rss_at Sample.http_500 0) = 5%nat /\
  fst (run fetch_news Sample.http_500) = Ret (JList (rss_at Sample.http_500 0)).
Proof.
  split; [reflexivity|]. split; [reflexivity|].
  exact (http_500_falls_back_to_rss Sample.http_500 eq_refl eq_refl).
Defined.

Lemma empty_answer_counts_as_failure_witness :
  gnews_result Sample.second_answers = Ret (JList []) /\
  calls "fetch_from_rss" (trace (snd (run fetch_news Sample.second_answers))) = 1%nat /\
  fst (run fetch_news Sample.second_answers) <> Ret (JList []) /\
  fst (run fetch_news Sample.second_answers) = Ret (JList (rss_at Sample.second_answers 0)).
Proof.
  exact (empty_answer_counts_as_failure Sample.second_answers
           (JDict [("totalArticles", JInt 0); ("articles", JList [])])
           eq_refl eq_refl eq_refl).
Defined.

Lemma fallback_when_every_source_fails_witness :
  (exists n,
     List.length (rss_at Sample.http_500 n) = 5%nat /\
     truthy (JList (rss_at Sample.http_500 n)) = true /\
     fst (run fetch_news Sample.http_500) = Ret (JList (rss_at Sample.http_500 n))) /\
  (exists text rec,
     fst (computed_fallback Sample.str (reading Sample.http_500) Sample.http_500
            (boot Sample.http_500)) = Ret (JStr text) /\
     text <> "" /\
     truthy (JStr text) = true /\
     getitem rec "summary" = Ret (JStr text) /\
     truthy rec = true /\
     fst (run (generate_insights Sample.str) Sample.http_500) = Ret rec).
Proof.
  destruct (fallback_when_every_source_fails Sample.str Sample.http_500) as [Hnews Hins].
  split.
  - apply Hnews. intros _. exists JNull. split; reflexivity.
  - apply Hins; [|reflexivity].
    intros _ m [<-|[<-|[]]]; reflexivity.
Defined.

Lemma absent_key_skips_network_witness :
  (calls "fetch_from_gnews" (trace (snd (run fetch_news Sample.offline))) = 0%nat /\
   requests (trace (snd (run fetch_news Sample.offline))) = [] /\
   fst (run fetch_news Sample.offline) = Ret (JList (rss_at Sample.offline 0))) /\
  (calls "call_openrouter"
     (trace (snd (run (generate_insights Sample.str) Sample.offline))) = 0%nat /\
   requests (trace (snd (run (generate_insights Sample.str) Sample.offline))) = [] /\
   exists text rec,
     text <> "" /\
     getitem rec "summary" = Ret (JStr text) /\
     fst (run (generate_insights Sample.str) Sample.offline) = Ret rec).
Proof.
  destruct (absent_key_skips_network Sample.str Sample.offline) as [Hnews Hins].
  split.
  - exact (Hnews eq_refl).
  - destruct (Hins eq_refl) as [Hc [Hr Hres]].
    split; [exact Hc|]. split; [exact Hr|]. exact (Hres eq_refl).
Defined.

Lemma fallback_text_shows_250_witness :
  model_key Sample.offline = "" /\
  getitem (reading Sample.offline) "current" = Ret (JFloat Float64.f2_5) /\
  exists text,
    contains text "250 ريال" /\
    fst (computed_fallback Sample.str (reading Sample.offline) Sample.offline
           (boot Sample.offline)) = Ret (JStr text) /\
    fst (run (generate_insights Sample.str) Sample.offline) =
      Ret (insights_record (JStr text) (clock Sample.offline 0)).
Proof.
  split; [reflexivity|]. split; [reflexivity|].
  exact (fallback_text_shows_250 Sample.str Sample.offline eq_refl eq_refl).
Defined.

Lemma missing_inflation_uses_default_witness :
  absent_or_malformed (disk Sample.garbled "data/inflation.json") = true /\
  load_inflation Sample.garbled (boot Sample.garbled) =
    (Ret default_inflation, boot Sample.garbled) /\
  exists text,
    contains text "250 ريال" /\
    fst (run (generate_insights Sample.str) Sample.garbled) =
      Ret (insights_record (JStr text) (clock Sample.garbled 0)).
Proof.
  split; [reflexivity|].
  destruct (missing_inflation_uses_default Sample.str Sample.garbled eq_refl)
    as [Hload [_ [_ [_ [Hrun _]]]]].
  split; [exact Hload|].
  exists (fallback_text "250" (Sample.str (JFloat Float64.f2_5))
                        (Sample.str (JFloat Float64.f2_5))).
  split; [exact (fallback_text_has_loss "250" _ _)|exact (Hrun eq_refl)].
Defined.

Lemma models_tried_in_order_witness :
  map model_of
    (requests (trace (snd (run (generate_insights Sample.str) Sample.second_answers)))) =
    [JStr "google/gemini-2.0-flash-exp:free";
     JStr "meta-llama/llama-3.2-3b-instruct:free"] /\
  fst (run (generate_insights Sample.str) Sample.second_answers) =
    Ret (insights_record (JStr "advice") (clock Sample.second_answers 0)).
Proof.
  destruct (models_tried_in_order Sample.str Sample.second_answers
              ["google/gemini-2.0-flash-exp:free"]
              ["meta-llama/llama-3.2-3b-instruct:free"]) as [Hreq Hres].
  - reflexivity.
  - exists (JFloat Float64.f2_5). reflexivity.
  - reflexivity.
  - intros m [<-|[]]. reflexivity.
  - intros m Hm. inversion Hm; subst. reflexivity.
  - split; [exact Hreq|].
    exact (Hres "meta-llama/llama-3.2-3b-instruct:free" eq_refl).
Defined.

Lemma write_failure_propagates_witness :
  (writable Sample.read_only "data" "data/news.json" = false /\
   fst (run fetch_news Sample.read_only) = Raise OSError /\
   writes (trace (snd (run fetch_news Sample.read_only))) = []) /\
  (writable Sample.read_only "data" "data/insights.json" = false /\
   fst (run (generate_insights Sample.str) Sample.read_only) = Raise OSError /\
   writes (trace (snd (run (generate_insights Sample.str) Sample.read_only))) = []).
Proof.
  destruct (write_failure_propagates Sample.str Sample.read_only) as [Hnews Hins].
  split.
  - split; [reflexivity|].
    destruct (Hnews eq_refl) as [Hr [Hw _]]. split; [exact Hr|exact Hw].
  - split; [reflexivity|].
    destruct (Hins eq_refl) as [_ [Hr [Hw _]]]. split; [exact (Hr eq_refl)|exact Hw].
Defined.

Lemma record_labels_are_constant_witness :
  exists rec,
    fst (run (generate_insights Sample.str) Sample.online) = Ret rec /\
    getitem rec "summary" = Ret (JStr "advice") /\
    getitem rec "model" = Ret (JStr "Smart-AI") /\
    getitem rec "language" = Ret (JStr "ar") /\
    files (snd (run (generate_insights Sample.str) Sample.online)) "data/insights.json"
      = Json rec.
Proof.
  exists (insights_record (JStr "advice") (clock Sample.online 0)).
  destruct (record_labels_are_constant Sample.str Sample.online) as [Hrec _].
  destruct (Hrec (insights_record (JStr "advice") (clock Sample.online 0)) eq_refl)
    as [Hm [Hl [Hf _]]].
  split; [reflexivity|]. split; [reflexivity|].
  split; [exact Hm|]. split; [exact Hl|exact Hf].
Defined.

(** The handler of the first [try] block covers [open] and [json.load]
    only: a file that parses but has no [current] is used as it is, and the
    prompt f-string raises [KeyError]. *)
Lemma parsed_reading_without_current_raises (py_str : value -> string) (w : World) :
  disk w "data/inflation.json" = Json (JDict []) ->
  run (generate_insights py_str) w = (Raise KeyError, boot w).
Proof.
  intros H. unfold run. rewrite generate_insights_steps. cbv zeta.
  change (files (boot w)) with (disk w). rewrite H. reflexivity.
Qed.

(* ===================================================================== *)
(** ** More on [fetch_from_gnews] *)
(* ===================================================================== *)

Lemma article_entry_good a w s :
  well_formed_article a = true ->
  exists e,
    article_entry a w s = (Ret e, ticked 1 s) /\ is_entry e /\ carries a e.
Proof.
  intros Hwf. destruct a as [| | | | | |d]; try discriminate.
  unfold well_formed_article in Hwf.
  unfold article_entry, bind, lift, utcnow, ret. cbn [get].
  destruct (assoc "source" d) as [src|] eqn:Hs.
  - destruct src as [| | | | | |sd]; try discriminate. cbn [get].
    eexists. split; [reflexivity|]. split.
    + eexists. split; reflexivity.
    + unfold carries. cbn [get getitem assoc String.eqb Ascii.eqb Bool.eqb].
      split; [reflexivity|]. split; [reflexivity|]. split; [reflexivity|].
      split.
      * exists (JDict sd). rewrite Hs. split; reflexivity.
      * intros d' p Hd Hp. inversion Hd; subst d'. rewrite Hp. reflexivity.
  - cbn [get assoc].
    eexists. split; [reflexivity|]. split.
    + eexists. split; reflexivity.
    + unfold carries. cbn [get getitem assoc String.eqb Ascii.eqb Bool.eqb].
      split; [reflexivity|]. split; [reflexivity|]. split; [reflexivity|].
      split.
      * exists (JDict []). rewrite Hs. split; reflexivity.
      * intros d' p Hd Hp. inversion Hd; subst d'. rewrite Hp. reflexivity.
Qed.

Lemma article_entry_bad a w s :
  well_formed_article a = false ->
  exists err, article_entry a w s = (Raise err, s).
Proof.
  intros Hwf. unfold article_entry, bind, lift, utcnow, ret.
  destruct a as [| | | | | |d]; try (eexists; reflexivity).
  unfold well_formed_article in Hwf. cbn [get].
  destruct (assoc "source" d) as [src|]; [|discriminate].
  destruct src; try discriminate; eexists; reflexivity.
Qed.

(** The comprehension over well-formed articles: one entry per article. *)
Lemma mapM_article_entry_good w l : forall s,
  forallb well_formed_article l = true ->
  exists es,
    mapM article_entry l w s = (Ret es, ticked (List.length l) s) /\
    Forall2 (fun a e => is_entry e /\ carries a e) l es.
Proof.
  induction l as [|a l IH]; intros s Hwf.
  - exists []. rewrite ticked_0. split; [reflexivity|constructor].
  - cbn [forallb] in Hwf. apply andb_prop in Hwf. destruct Hwf as [Ha Hl].
    destruct (article_entry_good a w s Ha) as [e [He [Hk Hc]]].
    destruct (IH (ticked 1 s) Hl) as [es [Hes Hall]].
    exists (e :: es). split.
    + cbn [mapM]. unfold bind at 1. rewrite He. unfold bind at 1. rewrite Hes.
      rewrite ticked_ticked. unfold ret. cbn [List.length].
      rewrite Nat.add_1_r. reflexivity.
    + constructor; [split; assumption|exact Hall].
Qed.

(** The comprehension over a list with a malformed article raises. *)
Lemma mapM_article_entry_bad w l : forall s,
  forallb well_formed_article l = false ->
  exists err n, mapM article_entry l w s = (Raise err, ticked n s).
Proof.
  induction l as [|a l IH]; intros s Hwf; [discriminate|].
  cbn [forallb] in Hwf. cbn [mapM]. unfold bind at 1.
  destruct (well_formed_article a) eqn:Ha.
  - destruct (article_entry_good a w s Ha) as [e [He _]]. rewrite He.
    destruct (IH (ticked 1 s) Hwf) as [err [n E]].
    unfold bind at 1. rewrite E, ticked_ticked. eauto.
  - destruct (article_entry_bad a w s Ha) as [err He]. rewrite He.
    exists err, O. rewrite ticked_0. reflexivity.
Qed.

(** [fetch_from_gnews] on an answer that was received and decoded. *)
Lemma fetch_from_gnews_body api_key w s data :
  urlopen w (gnews_request api_key) = Body data ->
  fetch_from_gnews api_key w s =
  match get data "articles" (JList []) with
  | Raise _ => (Ret JNull, log (gnews_events api_key) s)
  | Ret articles =>
      match iter_prefix articles 10 with
      | Raise _ => (Ret JNull, log (gnews_events api_key) s)
      | Ret first10 =>
          match mapM article_entry first10 w (log (gnews_events api_key) s) with
          | (Ret entries, s') => (Ret (JList entries), s')
          | (Raise _, s') => (Ret JNull, s')
          end
      end
  end.
Proof.
  intros H. unfold fetch_from_gnews, try, fetch_json.
  unfold bind at 1. unfold emit at 1.
  unfold bind at 1. unfold bind at 1. unfold emit at 1. rewrite H.
  cbn [ticks trace files]. rewrite <- app_assoc.
  change {| ticks := ticks s;
            trace := (trace s ++ [Called "fetch_from_gnews" [JStr api_key]]
                              ++ [Requested (gnews_request api_key)])%list;
            files := files s |}
    with (log (gnews_events api_key) s).
  unfold bind at 1. unfold lift at 1.
  destruct (get data "articles" (JList [])) as [articles|]; [|reflexivity].
  unfold bind at 1. unfold lift at 1.
  destruct (iter_prefix articles 10) as [first10|]; [|reflexivity].
  unfold bind at 1.
  destruct (mapM article_entry first10 w (log (gnews_events api_key) s)) as [[es|e] s'];
    reflexivity.
Qed.

Lemma Forall2_is_entry (l es : list value) :
  Forall2 (fun a e => is_entry e /\ carries a e) l es -> Forall is_entry es.
Proof.
  induction 1 as [|a e l es [He _] _ IH]; constructor; assumption.
Qed.

Lemma Forall2_length_eq {A B} (R : A -> B -> Prop) l1 l2 :
  Forall2 R l1 l2 -> List.length l1 = List.length l2.
Proof. induction 1; simpl; congruence. Qed.

(** What the comprehension returns, when it returns. *)
Lemma mapM_article_entry_ret w l s es s' :
  mapM article_entry l w s = (Ret es, s') ->
  forallb well_formed_article l = true /\
  Forall2 (fun a e => is_entry e /\ carries a e) l es.
Proof.
  intros H. destruct (forallb well_formed_article l) eqn:Hwf.
  - destruct (mapM_article_entry_good w l s Hwf) as [es' [E Hall]].
    rewrite E in H. inversion H; subst. split; [reflexivity|exact Hall].
  - destruct (mapM_article_entry_bad w l s Hwf) as [err [n E]].
    rewrite E in H. discriminate.
Qed.

(** [fetch_from_gnews] returns [None] or at most ten entries. *)
Lemma fetch_from_gnews_result api_key w s :
  exists v s',
    fetch_from_gnews api_key w s = (Ret v, s') /\
    (v = JNull \/
     exists l, v = JList l /\ (List.length l <= 10)%nat /\ Forall is_entry l).
Proof.
  destruct (urlopen w (gnews_request api_key)) as [e|data] eqn:Hu.
  - exists JNull. eexists. split; [exact (fetch_from_gnews_fails _ _ _ _ Hu)|].
    left; reflexivity.
  - rewrite (fetch_from_gnews_body _ _ _ _ Hu).
    destruct (get data "articles" (JList [])) as [articles|];
      [|exists JNull; eexists; split; [reflexivity|left; reflexivity]].
    destruct (iter_prefix articles 10) as [first10|] eqn:Hp;
      [|exists JNull; eexists; split; [reflexivity|left; reflexivity]].
    destruct (mapM_article_entry w first10 (log (gnews_events api_key) s))
      as [n [r [E Hr]]].
    rewrite E. destruct r as [es|err];
      [|exists JNull; eexists; split; [reflexivity|left; reflexivity]].
    exists (JList es). eexists. split; [reflexivity|].
    right. exists es. split; [reflexivity|]. split.
    + rewrite (Hr es eq_refl). exact (iter_prefix_length _ _ _ Hp).
    + destruct (mapM_article_entry_ret _ _ _ _ _ E) as [_ Hall].
      exact (Forall2_is_entry _ _ Hall).
Qed.

(** X1. The [try] block of [fetch_from_gnews] lets nothing out: whatever
    the endpoint does (no answer, an HTTP error status, a body that is not
    JSON or not of the expected shape, a malformed article), the call, with a
    standard output that takes its two diagnostics, returns [None] or a list
    of at most ten entries, each with exactly the five keys of an entry.  It
    sends exactly one request, the GET for the search URL with the key,
    writes no artifact and leaves every file as it was. *)
Theorem fetch_from_gnews_catches_failures (api_key : string) (w : World) (s : State) :
  exists v s',
    fetch_from_gnews api_key w s = (Ret v, s') /\
    (v = JNull \/
     exists l, v = JList l /\ (List.length l <= 10)%nat /\ Forall is_entry l) /\
    requests (trace s') = (requests (trace s) ++ [gnews_request api_key])%list /\
    writes (trace s') = writes (trace s) /\
    files s' = files s.
Proof.
  destruct (urlopen w (gnews_request api_key)) as [e|data] eqn:Hu.
  - exists JNull. eexists. split; [exact (fetch_from_gnews_fails _ _ _ _ Hu)|].
    split; [left; reflexivity|].
    cbn [log trace files]. rewrite requests_app, writes_app. cbn.
    rewrite app_nil_r. repeat split; reflexivity.
  - rewrite (fetch_from_gnews_body _ _ _ _ Hu).
    assert (Hlog : requests (trace (log (gnews_events api_key) s)) =
                   (requests (trace s) ++ [gnews_request api_key])%list /\
                   writes (trace (log (gnews_events api_key) s)) = writes (trace s)).
    { cbn [log trace]. rewrite requests_app, writes_app. cbn.
      rewrite app_nil_r. split; reflexivity. }
    destruct Hlog as [Hreq Hwr].
    destruct (get data "articles" (JList [])) as [articles|].
    2:{ exists JNull. eexists. split; [reflexivity|]. split; [left; reflexivity|].
        split; [exact Hreq|]. split; [exact Hwr|reflexivity]. }
    destruct (iter_prefix articles 10) as [first10|] eqn:Hp.
    2:{ exists JNull. eexists. split; [reflexivity|]. split; [left; reflexivity|].
        split; [exact Hreq|]. split; [exact Hwr|reflexivity]. }
    destruct (mapM_article_entry w first10 (log (gnews_events api_key) s))
      as [n [r [E Hr]]].
    rewrite E. destruct r as [es|err].
    + exists (JList es). eexists. split; [reflexivity|]. split.
      * right. exists es. split; [reflexivity|]. split.
        -- rewrite (Hr es eq_refl). exact (iter_prefix_length _ _ _ Hp).
        -- destruct (mapM_article_entry_ret _ _ _ _ _ E) as [_ Hall].
           exact (Forall2_is_entry _ _ Hall).
      * split; [exact Hreq|]. split; [exact Hwr|reflexivity].
    + exists JNull. eexists. split; [reflexivity|]. split; [left; reflexivity|].
      split; [exact Hreq|]. split; [exact Hwr|reflexivity].
Qed.

(** X2. The list [fetch_from_gnews] returns follows the upstream answer
    position by position: its i-th entry is built from the i-th of the first
    ten upstream articles, has exactly the five keys, and carries the
    article's title, description, url, source name and publishedAt as they
    are (without any check of their type), with '' and 'GNews' where the
    article lacks them.  So it has min(10, upstream count) entries. *)
Theorem gnews_entries_follow_upstream (api_key : string) (w : World) (s s' : State)
    (data : value) (articles l : list value) :
  urlopen w (gnews_request api_key) = Body data ->
  get data "articles" (JList []) = Ret (JList articles) ->
  fetch_from_gnews api_key w s = (Ret (JList l), s') ->
  Forall2 (fun a e => is_entry e /\ carries a e) (firstn 10 articles) l /\
  List.length l = Nat.min 10 (List.length articles).
Proof.
  intros Hu Ha Hrun. rewrite (fetch_from_gnews_body _ _ _ _ Hu), Ha in Hrun.
  unfold iter_prefix in Hrun.
  destruct (mapM article_entry (firstn 10 articles) w (log (gnews_events api_key) s))
    as [[es|err] s1] eqn:E; [|discriminate].
  inversion Hrun; subst.
  destruct (mapM_article_entry_ret _ _ _ _ _ E) as [_ Hall].
  split; [exact Hall|].
  rewrite <- (Forall2_length_eq _ _ _ Hall). apply length_firstn.
Qed.

(** X3. [fetch_from_gnews] is all or nothing over the first ten upstream
    articles: if each of them is an object whose source, when present, is an
    object, the call returns one entry per article; if a single one is not,
    the whole answer is dropped and the call returns [None].  Articles after
    the tenth are never looked at. *)
Theorem gnews_all_or_nothing (api_key : string) (w : World) (s : State)
    (data : value) (articles : list value) :
  urlopen w (gnews_request api_key) = Body data ->
  get data "articles" (JList []) = Ret (JList articles) ->
  (forallb well_formed_article (firstn 10 articles) = true ->
   exists l,
     fst (fetch_from_gnews api_key w s) = Ret (JList l) /\
     List.length l = Nat.min 10 (List.length articles)) /\
  (forallb well_formed_article (firstn 10 articles) = false ->
   fst (fetch_from_gnews api_key w s) = Ret JNull).
Proof.
  intros Hu Ha. rewrite (fetch_from_gnews_body _ _ _ _ Hu), Ha.
  unfold iter_prefix. split; intros Hwf.
  - destruct (mapM_article_entry_good w _ (log (gnews_events api_key) s) Hwf)
      as [es [E Hall]].
    rewrite E. exists es. split; [reflexivity|].
    rewrite <- (Forall2_length_eq _ _ _ Hall). apply length_firstn.
  - destruct (mapM_article_entry_bad w _ (log (gnews_events api_key) s) Hwf)
      as [err [n E]].
    rewrite E. reflexivity.
Qed.

(* ===================================================================== *)
(** ** A first source that succeeds *)
(* ===================================================================== *)

(** C2. A first source that succeeds is returned as it is and ends the
    chain.  [fetch_news]: if [fetch_from_gnews] returns a non-empty list,
    that list has at most 10 entries and follows the upstream answer position
    by position: its i-th entry is built from the i-th of the first ten
    upstream articles and carries that article's fields; [fetch_from_rss] is
    never called; nothing but that list is ever returned, and it is returned
    whenever the write goes through (a working disk, and texts that UTF-8 can
    encode).  [generate_insights]: if the first model returns a non-empty
    text, no other model is asked, every record returned has that text as its
    summary, and the record is returned whenever the write goes through. *)
Theorem first_success_is_returned (py_str : value -> string) (w : World) :
  (forall l,
     nonempty (news_key w) = true ->
     gnews_result w = Ret (JList l) ->
     l <> [] ->
     (List.length l <= 10)%nat /\
     (forall data articles,
        urlopen w (gnews_request (news_key w)) = Body data ->
        get data "articles" (JList []) = Ret (JList articles) ->
        Forall2 (fun a e => is_entry e /\ carries a e) (firstn 10 articles) l /\
        List.length l = Nat.min 10 (List.length articles)) /\
     calls "fetch_from_rss" (trace (snd (run fetch_news w))) = 0%nat /\
     (forall v, fst (run fetch_news w) = Ret v -> v = JList l) /\
     (forall p v, In (p, v) (writes (trace (snd (run fetch_news w)))) ->
        p = "data/news.json" /\ v = JList l) /\
     (encodable (JList l) = true ->
      fst (run fetch_news w) =
        if writable w "data" "data/news.json" then Ret (JList l) else Raise OSError)) /\
  (forall content,
     nonempty (model_key w) = true ->
     (exists c, getitem (reading w) "current" = Ret c) ->
     reply w (prompt_of py_str w) (model_key w) (JStr (hd "" models)) = content ->
     truthy content = true ->
     map model_of (requests (trace (snd (run (generate_insights py_str) w)))) =
       [JStr (hd "" models)] /\
     (forall rec, fst (run (generate_insights py_str) w) = Ret rec ->
        getitem rec "summary" = Ret content) /\
     (encodable content = true ->
      exists rec,
        getitem rec "summary" = Ret content /\
        fst (run (generate_insights py_str) w) =
          if writable w "data" "data/insights.json" then Ret rec else Raise OSError)).
Proof.
  split.
  - intros l Hk Hres Hl.
    destruct (fetch_from_gnews_run (news_key w) w (boot w)) as [n [v [E Hv]]].
    unfold gnews_result in Hres. rewrite E in Hres. cbn [fst] in Hres.
    inversion Hres; subst v.
    assert (Hlen : (List.length l <= 10)%nat).
    { destruct Hv as [Hv|[l' [Hv Hle]]]; [discriminate|]. inversion Hv; subst. exact Hle. }
    assert (Ht : truthy (JList l) = true) by (destruct l; [congruence|reflexivity]).
    split; [exact Hlen|]. split.
    { intros data articles Hb Ha. pose proof E as E'.
      rewrite (fetch_from_gnews_body _ _ _ _ Hb), Ha in E'. unfold iter_prefix in E'.
      destruct (mapM article_entry (firstn 10 articles) w
                  (log (gnews_events (news_key w)) (boot w))) as [[es|err] s1] eqn:Em;
        [|discriminate].
      apply (f_equal fst) in E'. cbn [fst] in E'. inversion E'; subst es.
      destruct (mapM_article_entry_ret _ _ _ _ _ Em) as [_ Hall].
      split; [exact Hall|].
      rewrite <- (Forall2_length_eq _ _ _ Hall). apply length_firstn. }
    unfold run. rewrite fetch_news_steps, Hk, E. cbv zeta iota beta.
    rewrite Ht, persist_run, persisted_trace, persisted_fst, calls_app, writes_app.
    split; [destruct (writable w "data" "data/news.json"); reflexivity|].
    split.
    { intros v. destruct (writable w "data" "data/news.json"); [|discriminate].
      intros H. inversion H. reflexivity. }
    split; [|intros _; reflexivity].
    intros p v.
    destruct (writable w "data" "data/news.json"); cbn; [|intros []].
    intros [H|[]]. inversion H. split; reflexivity.
  - intros content Hk Hc Hrep Ht. subst content.
    rewrite (generate_insights_first_success py_str w [] (hd "" models) (tl models)
               Hk Hc eq_refl) by (try exact Ht; intros m' []).
    rewrite persisted_trace, persisted_fst, requests_app.
    split; [|split].
    + cbn [ticked log boot trace app flat_map]. rewrite app_nil_r.
      destruct (writable w "data" "data/insights.json"); reflexivity.
    + intros rec. destruct (writable w "data" "data/insights.json"); [|discriminate].
      intros H. inversion H. reflexivity.
    + intros _. eexists. split; [|reflexivity]. reflexivity.
Qed.

Lemma first_success_is_returned_witness :
  (exists l,
     gnews_result Cases.twelve = Ret (JList l) /\
     map (fun e => text_of (getitem e "title")) l =
       ["1"; "2"; "3"; "4"; "5"; "6"; "7"; "8"; "9"; "10"] /\
     Forall2 (fun a e => is_entry e /\ carries a e)
       (map Cases.numbered (zrange 1 10)) l /\
     calls "fetch_from_rss" (trace (snd (run fetch_news Cases.twelve))) = 0%nat /\
     fst (run fetch_news Cases.twelve) = Ret (JList l)) /\
  (map model_of (requests (trace (snd (run (generate_insights Sample.str) Cases.twelve)))) =
     [JStr "google/gemini-2.0-flash-exp:free"] /\
   exists rec,
     getitem rec "summary" = Ret (JStr "advice") /\
     fst (run (generate_insights Sample.str) Cases.twelve) = Ret rec).
Proof.
  destruct (first_success_is_returned Sample.str Cases.twelve) as [Hnews Hins].
  split.
  - pose (l := match gnews_result Cases.twelve with Ret (JList l) => l | _ => [] end).
    exists l.
    assert (Hres : gnews_result Cases.twelve = Ret (JList l)) by (vm_compute; reflexivity).
    assert (Hl : l <> []) by (vm_compute; discriminate).
    destruct (Hnews l eq_refl Hres Hl) as [_ [Hfirst [Hc [_ [_ Hr]]]]].
    split; [exact Hres|]. split; [vm_compute; reflexivity|].
    split; [|split; [exact Hc|exact (Hr eq_refl)]].
    exact (proj1 (Hfirst _ (map Cases.numbered (zrange 1 12)) eq_refl eq_refl)).
  - destruct (Hins (JStr "advice") eq_refl (ex_intro _ (JFloat Float64.f2_5) eq_refl)
                eq_refl eq_refl) as [Hm [_ Hr]].
    split; [exact Hm|exact (Hr eq_refl)].
Defined.

(* ===================================================================== *)
(** ** More on [fetch_from_rss] and [fetch_news] *)
(* ===================================================================== *)

Lemma rss_at_entries w n : Forall is_entry (rss_at w n).
Proof.
  unfold rss_at, rss_articles.
  repeat constructor; eexists; split; reflexivity.
Qed.

(** The shape of what [fetch_news] returns. *)
Lemma fetch_news_shape w v :
  fst (run fetch_news w) = Ret v ->
  exists l,
    v = JList l /\
    (1 <= List.length l <= 10)%nat /\
    Forall is_entry l.
Proof.
  unfold run. rewrite fetch_news_steps.
  destruct (nonempty (news_key w)).
  - destruct (fetch_from_gnews_result (news_key w) w (boot w))
      as [r [s' [E Hr]]].
    rewrite E. cbv zeta iota beta.
    destruct (truthy r) eqn:Ht.
    + rewrite persist_run, persisted_fst.
      destruct (writable w "data" "data/news.json"); [|discriminate].
      intros H. inversion H; subst v.
      destruct Hr as [->|[l [-> [Hlen Hall]]]]; [discriminate|].
      exists l. split; [reflexivity|]. split; [|exact Hall].
      destruct l; [discriminate|]. cbn [List.length] in *. lia.
    + rewrite persist_run, persisted_fst.
      destruct (writable w "data" "data/news.json"); [|discriminate].
      intros H. inversion H; subst v.
      eexists. split; [reflexivity|]. split; [|apply rss_at_entries].
      rewrite rss_at_length. lia.
  - cbv zeta iota beta. cbn [truthy]. rewrite persist_run, persisted_fst.
    destruct (writable w "data" "data/news.json"); [|discriminate].
    intros H. inversion H; subst v.
    eexists. split; [reflexivity|]. split; [|apply rss_at_entries].
    rewrite rss_at_length. lia.
Qed.

(** X5. Whatever [fetch_news] returns is a list of at least one and at most
    ten entries, each with exactly the five keys: it never returns [None],
    and the branch that returns the empty list is never taken. *)
Theorem fetch_news_result_shape (w : World) (v : value) :
  fst (run fetch_news w) = Ret v ->
  exists l,
    v = JList l /\
    (1 <= List.length l <= 10)%nat /\
    Forall is_entry l.
Proof. exact (fetch_news_shape w v). Qed.

Lemma persisted_files_other w dir path v s p :
  p <> path ->
  files (snd (persisted w dir path v s)) p = files s p.
Proof.
  intros Hp. apply String.eqb_neq in Hp.
  unfold persisted.
  destruct (makedirs_fails w dir); [reflexivity|].
  destruct (open_w_fails w path); [reflexivity|].
  destruct (dump_fails w path); simpl; rewrite Hp; reflexivity.
Qed.

(** After a run that returns, the artifact holds what was returned. *)
Lemma fetch_news_file w v :
  fst (run fetch_news w) = Ret v ->
  files (snd (run fetch_news w)) "data/news.json" = Json v.
Proof.
  destruct (fetch_news_outcome w) as [n [evs [l [_ [_ Hrun]]]]].
  rewrite Hrun, persisted_fst, persisted_files.
  destruct (writable w "data" "data/news.json"); [congruence|discriminate].
Qed.

(** X6. What [fetch_news] returns is what it has written: a run returns
    only after its write is complete, the document then in data/news.json is
    exactly the returned list, whatever the file held before, and it is the
    one artifact written in the run. *)
Theorem fetch_news_artifact_is_result (w : World) (v : value) :
  fst (run fetch_news w) = Ret v ->
  files (snd (run fetch_news w)) "data/news.json" = Json v /\
  writes (trace (snd (run fetch_news w))) = [("data/news.json", v)] /\
  writable w "data" "data/news.json" = true.
Proof.
  destruct (fetch_news_outcome w) as [n [evs [l [Hevs [_ Hrun]]]]].
  rewrite Hrun, persisted_fst. intros Hv.
  assert (Hf : files (snd (persisted w "data" "data/news.json" (JList l)
                             (ticked n (log evs (boot w))))) "data/news.json" = Json v).
  { rewrite persisted_files.
    destruct (writable w "data" "data/news.json"); [congruence|discriminate]. }
  split; [exact Hf|]. split.
  - rewrite persisted_trace, writes_app.
    destruct (writable w "data" "data/news.json"); [|discriminate].
    inversion Hv; subst v.
    cbn [ticked log boot trace app writes]. rewrite Hevs. reflexivity.
  - destruct (writable w "data" "data/news.json"); [reflexivity|discriminate].
Qed.

(** X7. [fetch_news] touches no file but data/news.json: every other path
    holds after the run, also a failed one, what it held before. *)
Theorem fetch_news_leaves_other_files (w : World) (p : string) :
  p <> "data/news.json" ->
  files (snd (run fetch_news w)) p = disk w p.
Proof.
  intros Hp. destruct (fetch_news_outcome w) as [n [evs [l [_ [_ Hrun]]]]].
  rewrite Hrun, persisted_files_other by exact Hp. reflexivity.
Qed.

(** X8. A run of [fetch_news] sends at most one request and never retries:
    with a key it sends the one GET of [fetch_from_gnews], without a key it
    sends none.  [fetch_from_rss] is called exactly when the keyed source was
    skipped or gave nothing usable, and then once. *)
Theorem fetch_news_requests (w : World) :
  requests (trace (snd (run fetch_news w))) =
    (if nonempty (news_key w) then [gnews_request (news_key w)] else []) /\
  calls "fetch_from_gnews" (trace (snd (run fetch_news w))) =
    (if nonempty (news_key w) then 1 else 0)%nat /\
  calls "fetch_from_rss" (trace (snd (run fetch_news w))) =
    (if nonempty (news_key w) &&
        match gnews_result w with Ret v => truthy v | Raise _ => false end
     then 0 else 1)%nat.
Proof.
  unfold run, gnews_result. rewrite fetch_news_steps.
  destruct (nonempty (news_key w)).
  - destruct (fetch_from_gnews_run (news_key w) w (boot w)) as [n [v [E _]]].
    rewrite E. cbv zeta iota beta. cbn [fst andb].
    destruct (truthy v); rewrite persist_run, persisted_trace,
      requests_app, !calls_app;
      destruct (writable w "data" "data/news.json"); repeat split; reflexivity.
  - cbv zeta iota beta. cbn [truthy andb].
    rewrite persist_run, persisted_trace, requests_app, !calls_app.
    destruct (writable w "data" "data/news.json"); repeat split; reflexivity.
Qed.

(** *** The files play no part in [fetch_news] *)

Lemma article_entry_refile a w d f s :
  article_entry a (with_disk w d) (refile f s) =
  (fst (article_entry a w s), refile f (snd (article_entry a w s))).
Proof.
  unfold article_entry, bind, lift, utcnow, ret.
  destruct a as [| | | | | |dict]; try reflexivity.
  cbn [get].
  match goal with
  | |- context [get ?src "name" ?dflt] => destruct (get src "name" dflt)
  end; reflexivity.
Qed.

Lemma mapM_article_entry_refile w d f l : forall s,
  mapM article_entry l (with_disk w d) (refile f s) =
  (fst (mapM article_entry l w s), refile f (snd (mapM article_entry l w s))).
Proof.
  induction l as [|a l IH]; intros s; [reflexivity|].
  cbn [mapM]. unfold bind at 1 3 5. rewrite article_entry_refile.
  destruct (article_entry a w s) as [[e|err] s1]; [|reflexivity].
  cbn [fst snd]. unfold bind at 1 2 3. rewrite IH.
  destruct (mapM article_entry l w s1) as [[es|err] s2]; reflexivity.
Qed.

Lemma fetch_from_gnews_refile api_key w d f s :
  fetch_from_gnews api_key (with_disk w d) (refile f s) =
  (fst (fetch_from_gnews api_key w s), refile f (snd (fetch_from_gnews api_key w s))).
Proof.
  destruct (urlopen w (gnews_request api_key)) as [e|data] eqn:Hu.
  - rewrite (fetch_from_gnews_fails api_key w s e Hu).
    rewrite (fetch_from_gnews_fails api_key (with_disk w d) (refile f s) e Hu).
    reflexivity.
  - rewrite (fetch_from_gnews_body api_key w s data Hu).
    rewrite (fetch_from_gnews_body api_key (with_disk w d) (refile f s) data Hu).
    destruct (get data "articles" (JList [])) as [articles|]; [|reflexivity].
    destruct (iter_prefix articles 10) as [first10|]; [|reflexivity].
    change (log (gnews_events api_key) (refile f s))
      with (refile f (log (gnews_events api_key) s)).
    rewrite mapM_article_entry_refile.
    destruct (mapM article_entry first10 w (log (gnews_events api_key) s))
      as [[es|err] s']; reflexivity.
Qed.

(** X9. [fetch_news] reads no file: the artifact is made anew on every run.
    Two worlds that differ in their files only give the same result, whatever
    data/news.json or any other file held before. *)
Theorem fetch_news_ignores_files (w : World) (d : string -> file_state) :
  fst (run fetch_news (with_disk w d)) = fst (run fetch_news w).
Proof.
  unfold run. rewrite !fetch_news_steps.
  change (news_key (with_disk w d)) with (news_key w).
  change (boot (with_disk w d)) with (refile d (boot w)).
  destruct (nonempty (news_key w)).
  - rewrite fetch_from_gnews_refile.
    destruct (fetch_from_gnews (news_key w) w (boot w)) as [[v|e] s1];
      [|reflexivity].
    cbn [fst snd]. cbv zeta iota beta.
    destruct (truthy v); rewrite !persist_run, !persisted_fst; reflexivity.
  - cbv zeta iota beta. cbn [truthy].
    rewrite !persist_run, !persisted_fst. reflexivity.
Qed.

(* ===================================================================== *)
(** ** More on [call_openrouter] *)
(* ===================================================================== *)


(** X11. What [call_openrouter] returns for a decoded answer: the value at
    [choices[0].message.content] when the answer has it and it is a [str], a
    [list] or a [dict], so also an empty text, and a list or object, which is
    not checked to be a text; [None] when a step of the path is missing or
    the content is [null], a number or a boolean. *)
Theorem call_openrouter_returns_content (prompt api_key : string) (model : value)
    (w : World) (result : value) :
  nonempty api_key = true ->
  urlopen w (submitted prompt api_key model) = Body result ->
  reply w prompt api_key model =
    match answer_content result with
    | Ret (JStr text) => JStr text
    | Ret (JList l) => JList l
    | Ret (JDict d) => JDict d
    | _ => JNull
    end.
Proof.
  intros Hk Hu. unfold reply, call_openrouter, submitted, answer_content in *.
  rewrite Hk. cbn [negb]. unfold try, fetch_json, bind, emit, lift, ret.
  rewrite Hu.
  destruct (getitem result "choices") as [choices|e1]; [|destruct e1; reflexivity].
  destruct (getitem0 choices) as [choice|e2]; [|destruct e2; reflexivity].
  destruct (getitem choice "message") as [message|e3]; [|destruct e3; reflexivity].
  destruct (getitem message "content") as [content|e4]; [|destruct e4; reflexivity].
  destruct content; reflexivity.
Qed.

(* ===================================================================== *)
(** ** The headlines of [generate_insights] *)
(* ===================================================================== *)

Lemma join_strings sep ts : join sep (map JStr ts) = Ret (String.concat sep ts).
Proof.
  induction ts as [|t ts IH]; [reflexivity|].
  cbn [map join String.concat]. destruct ts as [|t' ts]; [reflexivity|].
  cbn [map] in *. rewrite IH. reflexivity.
Qed.

Lemma join_ret_strings sep : forall items h,
  join sep items = Ret h -> exists ts, items = map JStr ts.
Proof.
  induction items as [|v items IH]; intros h H.
  - exists []. reflexivity.
  - cbn [join] in H. destruct v; try discriminate.
    destruct items as [|v' items].
    + exists [s]. reflexivity.
    + destruct (join sep (v' :: items)) as [t|] eqn:E; [|discriminate].
      destruct (IH t eq_refl) as [ts Hts]. exists (s :: ts).
      cbn [map]. rewrite Hts. reflexivity.
Qed.

Lemma map_outcome_ret {A B} (f : A -> outcome B) : forall l ys,
  map_outcome f l = Ret ys -> Forall2 (fun a y => f a = Ret y) l ys.
Proof.
  induction l as [|a l IH]; intros ys H.
  - inversion H. constructor.
  - cbn [map_outcome] in H. destruct (f a) as [y|] eqn:Ha; [|discriminate].
    destruct (map_outcome f l) as [ys'|]; [|discriminate].
    inversion H; subst. constructor; [exact Ha|apply IH; reflexivity].
Qed.

Lemma map_outcome_of_Forall2 {A B} (f : A -> outcome B) : forall l ys,
  Forall2 (fun a y => f a = Ret y) l ys -> map_outcome f l = Ret ys.
Proof.
  induction 1 as [|a y l ys Ha _ IH]; [reflexivity|].
  cbn [map_outcome]. rewrite Ha, IH. reflexivity.
Qed.

(** The second [try] block on a news file that holds a list. *)
Lemma load_headlines_list w s l :
  files s "data/news.json" = Json (JList l) ->
  load_headlines w s =
  (match map_outcome (fun n => getitem n "title") (firstn 3 l) with
   | Ret titles => match join " | " titles with
                   | Ret h => Ret h
                   | Raise _ => Ret no_news
                   end
   | Raise _ => Ret no_news
   end, s).
Proof.
  intros Hf. unfold load_headlines, try, load_json, bind, lift, ret.
  rewrite Hf. unfold iter_prefix.
  destruct (map_outcome (fun n => getitem n "title") (firstn 3 l)) as [titles|];
    [|reflexivity].
  destruct (join " | " titles); reflexivity.
Qed.

(** X12. The headlines never fail: the second [try] block never raises and
    changes nothing, and unless data/news.json holds a list (or an empty
    text) it yields the placeholder, so also when the file is missing, cannot
    be opened or is not JSON. *)
Theorem headlines_never_raise (w : World) (s : State) :
  (exists h, load_headlines w s = (Ret h, s)) /\
  ((forall l, files s "data/news.json" <> Json (JList l)) ->
   files s "data/news.json" <> Json (JStr "") ->
   load_headlines w s = (Ret no_news, s)).
Proof.
  split; [exists (headlines w s); apply load_headlines_run|].
  intros Hl Hs. unfold load_headlines, try, load_json, bind, lift, ret.
  destruct (files s "data/news.json") as [| | |news]; try reflexivity.
  destruct news as [| | | |str|l|]; try reflexivity.
  - destruct str as [|c str]; [exfalso; apply Hs; reflexivity|].
    unfold iter_prefix.
    destruct (utf8_chars (String c str)) as [|g gs] eqn:E.
    + cbn [utf8_chars] in E. destruct (utf8_chars str) as [|[|c' g'] gs'];
        try discriminate. destruct (is_continuation c'); discriminate.
    + destruct gs as [|g2 gs]; reflexivity.
  - exfalso. exact (Hl l eq_refl).
Qed.

(** The headlines of a list with titled entries. *)
Lemma load_headlines_titles w s l ts :
  files s "data/news.json" = Json (JList l) ->
  Forall2 (fun e t => getitem e "title" = Ret (JStr t)) (firstn 3 l) ts ->
  load_headlines w s = (Ret (String.concat " | " ts), s).
Proof.
  intros Hf Hts. rewrite (load_headlines_list w s l Hf).
  assert (Hm : map_outcome (fun n => getitem n "title") (firstn 3 l) = Ret (map JStr ts)).
  { apply map_outcome_of_Forall2. clear Hf.
    induction Hts as [|e t es ts' He _ IH]; constructor; assumption. }
  rewrite Hm, join_strings. reflexivity.
Qed.

(** X13. When data/news.json holds a list whose first three entries have a
    text as title, the headlines are these titles joined by " | ": entries
    after the third play no part, and an empty list gives an empty text, not
    the placeholder. *)
Theorem headlines_join_first_three (w : World) (s : State) (l : list value)
    (ts : list string) :
  files s "data/news.json" = Json (JList l) ->
  Forall2 (fun e t => getitem e "title" = Ret (JStr t)) (firstn 3 l) ts ->
  load_headlines w s = (Ret (String.concat " | " ts), s).
Proof. exact (load_headlines_titles w s l ts). Qed.

(** X14. The headlines are all or nothing: when one of the first three
    entries of the list in data/news.json has no title, or a title that is
    not a text, the placeholder replaces all the headlines. *)
Theorem headlines_all_or_nothing (w : World) (s : State) (l : list value)
    (e : value) :
  files s "data/news.json" = Json (JList l) ->
  In e (firstn 3 l) ->
  (forall t, getitem e "title" <> Ret (JStr t)) ->
  load_headlines w s = (Ret no_news, s).
Proof.
  intros Hf Hin Hbad. rewrite (load_headlines_list w s l Hf).
  destruct (map_outcome (fun n => getitem n "title") (firstn 3 l)) as [titles|] eqn:Hm;
    [|reflexivity].
  destruct (join " | " titles) as [h|] eqn:Hj; [|reflexivity].
  exfalso. destruct (join_ret_strings _ _ _ Hj) as [ts Hts]. subst titles.
  apply map_outcome_ret in Hm.
  clear Hj Hf. revert ts Hm. induction (firstn 3 l) as [|a rest IH]; intros ts Hm.
  - destruct Hin.
  - inversion Hm as [|a' y l' ys Ha Hrest Heq1 Heq2]; subst.
    destruct ts as [|t ts]; [discriminate|]. cbn [map] in Heq2.
    inversion Heq2; subst.
    destruct Hin as [<-|Hin].
    + exact (Hbad t Ha).
    + exact (IH Hin ts Hrest).
Qed.

(* ===================================================================== *)
(** ** More on [generate_insights] *)
(* ===================================================================== *)

(** The loop tries a prefix of the list, and what it leaves in
    [insights_text] is a non-empty answer unless it is what it started with
    or the last empty answer. *)
Lemma try_models_prefix prompt api_key w ms : forall acc s,
  nonempty api_key = true ->
  exists v k,
    (k <= List.length ms)%nat /\
    try_models prompt api_key ms acc w s =
    (Ret v, log (flat_map (attempt prompt api_key) (firstn k ms)) s).
Proof.
  induction ms as [|m ms IH]; intros acc s Hk.
  - exists acc, O. split; [reflexivity|].
    cbn [try_models firstn flat_map]. rewrite log_nil. reflexivity.
  - cbn [try_models]. unfold bind. rewrite call_openrouter_run by exact Hk.
    destruct (truthy (reply w prompt api_key (JStr m))).
    + exists (reply w prompt api_key (JStr m)), 1%nat.
      split; [cbn [List.length]; lia|].
      cbn [firstn flat_map]. rewrite app_nil_r. reflexivity.
    + destruct (IH (reply w prompt api_key (JStr m))
                   (log (attempt prompt api_key m) s) Hk) as [v [k [Hle E]]].
      exists v, (S k). split; [cbn [List.length]; lia|].
      unfold attempt in *. rewrite E, log_log. reflexivity.
Qed.

(** Every run: the models asked are a prefix of the list, and the run
    either raises before the write or reaches it with a non-empty summary. *)
Lemma generate_insights_trace py_str w :
  exists k,
    (k <= List.length models)%nat /\
    (nonempty (model_key w) = false -> k = O) /\
    ((exists e,
        run (generate_insights py_str) w =
        (Raise e,
         log (flat_map (attempt (prompt_of py_str w) (model_key w)) (firstn k models))
             (boot w))) \/
     (exists text,
        truthy text = true /\
        run (generate_insights py_str) w =
        persisted w "data" "data/insights.json"
          (insights_record text (clock w 0))
          (ticked 1
             (log (flat_map (attempt (prompt_of py_str w) (model_key w))
                            (firstn k models))
                  (boot w))))).
Proof.
  unfold run. rewrite generate_insights_steps. cbv zeta.
  change (reading_of (files (boot w) "data/inflation.json")) with (reading w).
  unfold prompt_of.
  destruct (getitem (reading w) "current") as [current|e] eqn:Hc.
  2:{ exists O. split; [lia|]. split; [reflexivity|].
      left. exists e. cbn [firstn flat_map]. rewrite log_nil. reflexivity. }
  assert (Hfb : forall text', fallback_of py_str (reading w) = Ret text' ->
                              truthy text' = true).
  { intros text' H. unfold fallback_of in H. rewrite Hc in H.
    destruct (Float64.truediv_int current 100); [|discriminate].
    inversion H. cbn [truthy].
    match goal with
    | |- negb (String.eqb ?t "") = true =>
        destruct (String.eqb_spec t "") as [E|E];
          [exfalso; exact (fallback_text_nonempty _ _ _ E)|reflexivity]
    end. }
  destruct (nonempty (model_key w)) eqn:Hk.
  - destruct (try_models_prefix (prompt_text (py_str current) (headlines w (boot w)))
                (model_key w) w models JNull (boot w) Hk) as [text [k [Hle E]]].
    rewrite E. exists k. split; [exact Hle|]. split; [discriminate|].
    destruct (truthy text) eqn:Ht.
    + right. exists text. split; [exact Ht|]. rewrite persist_run. reflexivity.
    + destruct (fallback_of py_str (reading w)) as [text'|e] eqn:Hf.
      * right. exists text'. split; [exact (Hfb _ eq_refl)|].
        rewrite persist_run. reflexivity.
      * left. exists e. reflexivity.
  - exists O. split; [lia|]. split; [reflexivity|].
    cbn [truthy firstn flat_map]. rewrite log_nil.
    destruct (fallback_of py_str (reading w)) as [text'|e] eqn:Hf.
    + right. exists text'. split; [exact (Hfb _ eq_refl)|].
      rewrite persist_run. reflexivity.
    + left. exists e. reflexivity.
Qed.

(** X15. The summary of a record that [generate_insights] returns is never
    [None] and never empty, whichever branch produced it. *)
Theorem summary_is_never_empty (py_str : value -> string) (w : World) (rec : value) :
  fst (run (generate_insights py_str) w) = Ret rec ->
  exists text,
    getitem rec "summary" = Ret text /\ truthy text = true.
Proof.
  destruct (generate_insights_trace py_str w) as [k [_ [_ Hrun]]].
  destruct Hrun as [[e Hrun]|[text [Ht Hrun]]]; rewrite Hrun; [discriminate|].
  rewrite persisted_fst.
  destruct (writable w "data" "data/insights.json"); [|discriminate].
  intros H. inversion H; subst rec. exists text. split; [reflexivity|exact Ht].
Qed.

(** X16. In every run of [generate_insights] the requests sent are those
    for a prefix of the model list, in list order, all with the prompt and
    the key of the run: at most one request per model, none repeated, none
    without a key. *)
Theorem insight_requests_are_a_prefix (py_str : value -> string) (w : World) :
  exists k,
    (k <= List.length models)%nat /\
    (nonempty (model_key w) = false -> k = O) /\
    requests (trace (snd (run (generate_insights py_str) w))) =
      map (fun m => submitted (prompt_of py_str w) (model_key w) (JStr m))
          (firstn k models) /\
    calls "call_openrouter" (trace (snd (run (generate_insights py_str) w))) = k.
Proof.
  destruct (generate_insights_trace py_str w) as [k [Hle [Hk Hrun]]].
  exists k. split; [exact Hle|]. split; [exact Hk|].
  assert (Hcalls : forall p a ms,
            calls "call_openrouter" (flat_map (attempt p a) ms) = List.length ms).
  { intros p a ms. induction ms as [|m ms IH]; [reflexivity|].
    cbn [flat_map]. rewrite calls_app, IH. reflexivity. }
  assert (Hlen : List.length (firstn k models) = k).
  { rewrite length_firstn. lia. }
  destruct Hrun as [[e Hrun]|[text [_ Hrun]]]; rewrite Hrun.
  - cbn [snd log boot trace app]. rewrite requests_attempts, Hcalls, Hlen.
    split; reflexivity.
  - rewrite persisted_trace, requests_app, calls_app.
    cbn [ticked log boot trace app]. rewrite requests_attempts, Hcalls, Hlen.
    destruct (writable w "data" "data/insights.json"); cbn [requests calls];
      rewrite app_nil_r, Nat.add_0_r; split; reflexivity.
Qed.

(** X17. [generate_insights] touches no file but data/insights.json: the
    inflation file, the news file and every other path hold after the run,
    also a failed one, what they held before. *)
Theorem generate_insights_leaves_other_files (py_str : value -> string)
    (w : World) (p : string) :
  p <> "data/insights.json" ->
  files (snd (run (generate_insights py_str) w)) p = disk w p.
Proof.
  intros Hp. destruct (generate_insights_trace py_str w) as [k [_ [_ Hrun]]].
  destruct Hrun as [[e Hrun]|[text [_ Hrun]]]; rewrite Hrun; [reflexivity|].
  rewrite persisted_files_other by exact Hp. reflexivity.
Qed.

(** X18. Without a model key the run is decided by the inflation reading,
    the clock and the disk alone: another network and other files, the news
    file among them, give the same result as long as the inflation file is
    the same. *)
Theorem keyless_run_ignores_network_and_news (py_str : value -> string)
    (w : World) (u : request -> response) (d : string -> file_state) :
  model_key w = "" ->
  d "data/inflation.json" = disk w "data/inflation.json" ->
  fst (run (generate_insights py_str) (with_network (with_disk w d) u)) =
  fst (run (generate_insights py_str) w).
Proof.
  intros Hk Hd. unfold run. rewrite !generate_insights_steps. cbv zeta.
  change (model_key (with_network (with_disk w d) u)) with (model_key w).
  rewrite Hk. cbn [nonempty String.eqb negb truthy].
  change (files (boot (with_network (with_disk w d) u)) "data/inflation.json")
    with (d "data/inflation.json").
  change (files (boot w) "data/inflation.json") with (disk w "data/inflation.json").
  rewrite Hd.
  destruct (getitem (reading_of (disk w "data/inflation.json")) "current");
    [|reflexivity].
  destruct (fallback_of py_str (reading_of (disk w "data/inflation.json")));
    [|reflexivity].
  rewrite !persist_run, !persisted_fst. reflexivity.
Qed.

(** X19. An inflation file that parses is used as it is, without a check:
    when what it holds has no [current] (or is not an object), the run raises
    at the prompt, before any request, and writes nothing. *)
Theorem reading_without_current_raises (py_str : value -> string) (w : World)
    (v : value) (e : exn) :
  disk w "data/inflation.json" = Json v ->
  getitem v "current" = Raise e ->
  run (generate_insights py_str) w = (Raise e, boot w).
Proof.
  intros Hd Hc. unfold run. rewrite generate_insights_steps. cbv zeta.
  change (files (boot w)) with (disk w). rewrite Hd. cbn [reading_of].
  rewrite Hc. reflexivity.
Qed.

(** X20. The type of [current] matters on the fallback branch only: when
    no model gives a text and [current] cannot be divided by 100 (a text, a
    list, an object or [null], or an integer beyond the [float] range), the
    run raises the error of the division and writes nothing. *)
Theorem undividable_current_raises_on_fallback (py_str : value -> string)
    (w : World) (c : value) (e : exn) :
  models_fail py_str w ->
  getitem (reading w) "current" = Ret c ->
  Float64.truediv_int c 100 = Raise e ->
  fst (run (generate_insights py_str) w) = Raise e /\
  writes (trace (snd (run (generate_insights py_str) w))) = [] /\
  files (snd (run (generate_insights py_str) w)) "data/insights.json" =
    disk w "data/insights.json".
Proof.
  intros Hfail Hc Hdiv.
  destruct (generate_insights_fallback py_str w Hfail (ex_intro _ c Hc))
    as [evs [Hevs [_ [_ Hrun]]]].
  assert (Hfb : fallback_of py_str (reading w) = Raise e).
  { unfold fallback_of. rewrite Hc, Hdiv. reflexivity. }
  rewrite Hfb in Hrun. rewrite Hrun.
  split; [reflexivity|]. split; [exact Hevs|reflexivity].
Qed.

(* ===================================================================== *)
(** ** The loss figure *)
(* ===================================================================== *)

Lemma zrange_In n : forall lo k,
  lo <= k < lo + Z.of_nat n -> In k (zrange lo n).
Proof.
  induction n as [|n IH]; intros lo k H; [lia|].
  cbn [zrange]. destruct (Z.eq_dec lo k) as [->|Hne]; [left; reflexivity|].
  right. apply IH. lia.
Qed.

Lemma loss_figure_checked :
  forallb (fun k => String.eqb (loss_figure k) (signed k))
          (zrange (-1000) (Z.to_nat 11001)) = true.
Proof. vm_compute. reflexivity. Qed.

(** X21. For every inflation reading with two decimals between -10.00 and
    100.00, as [json.load] reads it, the loss figure of the fallback text is
    exactly 100 times the reading: the binary rounding of
    [10000 * (current / 100)] never shows under [.0f].  The text shows the
    figure followed by the currency. *)
Theorem loss_figure_is_exact (py_str : value -> string) (w : World) (s : State)
    (inflation : value) (k : Z) :
  -1000 <= k <= 10000 ->
  getitem inflation "current" = Ret (JFloat (hundredths k)) ->
  exists text,
    computed_fallback py_str inflation w s = (Ret (JStr text), s) /\
    contains text (signed k ++ " ريال").
Proof.
  intros Hk Hc.
  assert (Hfig : loss_figure k = signed k).
  { pose proof loss_figure_checked as H. rewrite forallb_forall in H.
    apply String.eqb_eq. apply H. apply zrange_In. lia. }
  rewrite computed_fallback_run. unfold fallback_of. rewrite Hc.
  cbn [Float64.truediv_int]. fold (loss_figure k). rewrite Hfig.
  eexists. split; [reflexivity|]. apply fallback_text_has_loss.
Qed.

(* ===================================================================== *)
(** ** From one script to the other *)
(* ===================================================================== *)

Lemma In_firstn_In {A} (x : A) : forall n l, In x (firstn n l) -> In x l.
Proof.
  induction n as [|n IH]; intros l H; [destruct H|].
  destruct l as [|a l]; [destruct H|].
  cbn [firstn] in H. destruct H as [->|H]; [left; reflexivity|right; exact (IH l H)].
Qed.

Lemma is_entry_title e : is_entry e -> exists t, getitem e "title" = Ret t.
Proof.
  intros [d [-> Hd]]. unfold entry_keys in Hd.
  destruct d as [|[k v] d]; [discriminate|].
  cbn [map fst] in Hd. inversion Hd; subst k. exists v. reflexivity.
Qed.

(** X22. The artifact of [fetch_news] is what [generate_insights] needs:
    in a later process started on the files a returning run left, each of the
    first three entries has a title, so the headline block cannot fail on a
    missing key, and when these titles are texts the headlines are exactly
    these titles joined by " | ". *)
Theorem news_feed_the_headlines (w : World) (l : list value) :
  fst (run fetch_news w) = Ret (JList l) ->
  (exists titles,
     Forall2 (fun e t => getitem e "title" = Ret t) (firstn 3 l) titles) /\
  (forall ts,
     Forall2 (fun e t => getitem e "title" = Ret (JStr t)) (firstn 3 l) ts ->
     load_headlines (with_disk w (files (snd (run fetch_news w))))
                    (boot (with_disk w (files (snd (run fetch_news w))))) =
     (Ret (String.concat " | " ts),
      boot (with_disk w (files (snd (run fetch_news w)))))).
Proof.
  intros Hrun. split.
  - destruct (fetch_news_shape w _ Hrun) as [l' [Hl [_ Hall]]].
    inversion Hl; subst l'. clear Hl Hrun.
    assert (Hpre : Forall is_entry (firstn 3 l)).
    { apply Forall_forall. intros e He. rewrite Forall_forall in Hall.
      apply Hall. exact (In_firstn_In _ _ _ He). }
    induction Hpre as [|e es He _ IH].
    + exists []. constructor.
    + destruct IH as [titles IH]. destruct (is_entry_title e He) as [t Ht].
      exists (t :: titles). constructor; assumption.
  - intros ts Hts.
    apply (load_headlines_titles _ _ l ts); [|exact Hts].
    exact (fetch_news_file w _ Hrun).
Qed.

(* ===================================================================== *)
(** ** These theorems at work on the sample worlds *)
(* ===================================================================== *)

Lemma gnews_entries_follow_upstream_witness :
  exists l s',
    fetch_from_gnews "secret" Sample.online (boot Sample.online) = (Ret (JList l), s') /\
    Forall2 (fun a e => is_entry e /\ carries a e)
            (firstn 10 (repeat Sample.article 12)) l /\
    List.length l = 10%nat.
Proof.
  destruct (fetch_from_gnews "secret" Sample.online (boot Sample.online))
    as [[v|e] s'] eqn:E; [|vm_compute in E; discriminate].
  destruct v as [| | | | |l|]; try (vm_compute in E; discriminate).
  exists l, s'. split; [reflexivity|].
  exact (gnews_entries_follow_upstream "secret" Sample.online _ _ _
           (repeat Sample.article 12) l eq_refl eq_refl E).
Defined.

Lemma gnews_all_or_nothing_witness :
  (exists l,
     fst (fetch_from_gnews "secret" Sample.online (boot Sample.online)) = Ret (JList l) /\
     List.length l = 10%nat) /\
  fst (fetch_from_gnews "secret" Cases.one_bad_article (boot Cases.one_bad_article))
    = Ret JNull.
Proof.
  split.
  - exact (proj1 (gnews_all_or_nothing "secret" Sample.online (boot Sample.online) _
                    (repeat Sample.article 12) eq_refl eq_refl) eq_refl).
  - exact (proj2 (gnews_all_or_nothing "secret" Cases.one_bad_article
                    (boot Cases.one_bad_article) _
                    [Sample.article; Cases.no_source] eq_refl eq_refl) eq_refl).
Defined.

Lemma fetch_news_result_shape_witness :
  exists l,
    fst (run fetch_news Sample.offline) = Ret (JList l) /\
    (1 <= List.length l <= 10)%nat /\
    Forall is_entry l.
Proof.
  destruct (fetch_news_result_shape Sample.offline
              (JList (rss_at Sample.offline 0)) eq_refl) as [l [Hl Hshape]].
  exists l. split; [rewrite <- Hl; reflexivity|exact Hshape].
Defined.

Lemma fetch_news_artifact_is_result_witness :
  disk Cases.with_news "data/news.json" <> Json (JList (rss_at Cases.with_news 0)) /\
  files (snd (run fetch_news Cases.with_news)) "data/news.json"
    = Json (JList (rss_at Cases.with_news 0)) /\
  writes (trace (snd (run fetch_news Cases.with_news)))
    = [("data/news.json", JList (rss_at Cases.with_news 0))] /\
  writable Cases.with_news "data" "data/news.json" = true.
Proof.
  split; [discriminate|].
  exact (fetch_news_artifact_is_result Cases.with_news
           (JList (rss_at Cases.with_news 0)) eq_refl).
Defined.

Lemma fetch_news_leaves_other_files_witness :
  files (snd (run fetch_news Cases.with_news)) "data/inflation.json"
    = disk Cases.with_news "data/inflation.json".
Proof.
  apply fetch_news_leaves_other_files. discriminate.
Defined.

Lemma call_openrouter_returns_content_witness :
  reply Sample.online "prompt" "secret" JNull = JStr "advice".
Proof.
  exact (call_openrouter_returns_content "prompt" "secret" JNull Sample.online
           (Sample.chat "advice") eq_refl eq_refl).
Defined.

Lemma headlines_join_first_three_witness :
  load_headlines Cases.with_news (boot Cases.with_news)
    = (Ret "one | two | three", boot Cases.with_news).
Proof.
  apply (headlines_join_first_three Cases.with_news (boot Cases.with_news)
           [Cases.titled "one"; Cases.titled "two"; Cases.titled "three"; JDict []]
           ["one"; "two"; "three"]).
  - reflexivity.
  - repeat constructor.
Defined.

Lemma headlines_all_or_nothing_witness :
  load_headlines Cases.untitled_news (boot Cases.untitled_news)
    = (Ret no_news, boot Cases.untitled_news).
Proof.
  apply (headlines_all_or_nothing Cases.untitled_news (boot Cases.untitled_news)
           [Cases.titled "one"; JDict []; Cases.titled "three"] (JDict [])).
  - reflexivity.
  - right. left. reflexivity.
  - intros t H. discriminate.
Defined.

Lemma summary_is_never_empty_witness :
  exists rec text,
    fst (run (generate_insights Sample.str) Sample.online) = Ret rec /\
    getitem rec "summary" = Ret text /\
    truthy text = true.
Proof.
  exists (insights_record (JStr "advice") (clock Sample.online 0)).
  destruct (summary_is_never_empty Sample.str Sample.online
              (insights_record (JStr "advice") (clock Sample.online 0)) eq_refl)
    as [text [Hs Ht]].
  exists text. split; [reflexivity|]. split; [exact Hs|exact Ht].
Defined.

Lemma generate_insights_leaves_other_files_witness :
  files (snd (run (generate_insights Sample.str) Cases.with_news)) "data/news.json"
    = disk Cases.with_news "data/news.json".
Proof.
  apply generate_insights_leaves_other_files. discriminate.
Defined.

Lemma keyless_run_ignores_network_and_news_witness :
  fst (run (generate_insights Sample.str)
         (with_network (with_disk Sample.offline (disk Cases.untitled_news))
                       (urlopen Sample.online))) =
  fst (run (generate_insights Sample.str) Sample.offline).
Proof.
  apply keyless_run_ignores_network_and_news; reflexivity.
Defined.

Lemma reading_without_current_raises_witness :
  run (generate_insights Sample.str) Cases.empty_reading =
  (Raise KeyError, boot Cases.empty_reading).
Proof.
  exact (reading_without_current_raises Sample.str Cases.empty_reading
           (JDict []) KeyError eq_refl eq_refl).
Defined.

Lemma undividable_current_raises_on_fallback_witness :
  fst (run (generate_insights Sample.str) Cases.text_reading) = Raise TypeError /\
  writes (trace (snd (run (generate_insights Sample.str) Cases.text_reading))) = [] /\
  files (snd (run (generate_insights Sample.str) Cases.text_reading))
        "data/insights.json" = disk Cases.text_reading "data/insights.json".
Proof.
  apply (undividable_current_raises_on_fallback Sample.str Cases.text_reading
           (JStr "2.5") TypeError).
  - intros H. vm_compute in H. discriminate.
  - reflexivity.
  - reflexivity.
Defined.

Lemma loss_figure_is_exact_witness :
  exists text,
    computed_fallback Sample.str (reading Cases.with_news) Cases.with_news
      (boot Cases.with_news) = (Ret (JStr text), boot Cases.with_news) /\
    contains text "237 ريال".
Proof.
  apply (loss_figure_is_exact Sample.str Cases.with_news (boot Cases.with_news)
           (reading Cases.with_news) 237).
  - lia.
  - reflexivity.
Defined.

Lemma news_feed_the_headlines_witness :
  exists h,
    load_headlines
      (with_disk Sample.offline (files (snd (run fetch_news Sample.offline))))
      (boot (with_disk Sample.offline (files (snd (run fetch_news Sample.offline)))))
    = (Ret h, boot (with_disk Sample.offline (files (snd (run fetch_news Sample.offline)))))
    /\ h <> no_news /\ h <> "".
Proof.
  destruct (news_feed_the_headlines Sample.offline (rss_at Sample.offline 0) eq_refl)
    as [_ Hh].
  eexists. split.
  - apply (Hh (map (fun e => text_of (getitem e "title"))
                   (firstn 3 (rss_at Sample.offline 0)))).
    repeat constructor.
  - split; intros H; vm_compute in H; discriminate.
Defined.

(* ===================================================================== *)
(** ** Where the reading is not what the fallback needs *)
(* ===================================================================== *)

(** C1, counterexample.  Both keys are set and every request is answered
    with HTTP 500, so that every source of the insight chain fails; the
    inflation file parses and its [current] is the text "2.5".  The fallback
    text cannot be computed: [generate_insights] raises [TypeError] at the
    division, returns no record and writes no artifact. *)
Lemma fallback_when_every_source_fails_counterexample :
  models_fail Sample.str Cases.refused_text_reading /\
  (forall m, In m models ->
     reply Cases.refused_text_reading (prompt_of Sample.str Cases.refused_text_reading)
       (model_key Cases.refused_text_reading) (JStr m) = JNull) /\
  fst (run (generate_insights Sample.str) Cases.refused_text_reading) = Raise TypeError /\
  ~ (exists rec, fst (run (generate_insights Sample.str) Cases.refused_text_reading) = Ret rec) /\
  writes (trace (snd (run (generate_insights Sample.str) Cases.refused_text_reading))) = [] /\
  files (snd (run (generate_insights Sample.str) Cases.refused_text_reading))
    "data/insights.json" = Missing.
Proof.
  assert (Hrun : fst (run (generate_insights Sample.str) Cases.refused_text_reading)
                 = Raise TypeError) by (vm_compute; reflexivity).
  split; [intros _ m [<-|[<-|[]]]; vm_compute; reflexivity|].
  split; [intros m [<-|[<-|[]]]; vm_compute; reflexivity|].
  split; [exact Hrun|].
  split; [intros [rec H]; rewrite Hrun in H; discriminate|].
  split; vm_compute; reflexivity.
Qed.

(** C4, counterexample.  No key is set and the inflation file holds an empty
    object.  The model source is skipped, and yet [generate_insights]
    produces no result: it raises [KeyError] where the prompt reads
    [current], before anything is computed or written. *)
Lemma absent_key_skips_network_counterexample :
  model_key Cases.empty_reading = "" /\
  calls "call_openrouter"
    (trace (snd (run (generate_insights Sample.str) Cases.empty_reading))) = 0%nat /\
  fst (run (generate_insights Sample.str) Cases.empty_reading) = Raise KeyError /\
  ~ (exists rec, fst (run (generate_insights Sample.str) Cases.empty_reading) = Ret rec) /\
  writes (trace (snd (run (generate_insights Sample.str) Cases.empty_reading))) = [].
Proof.
  assert (Hrun : fst (run (generate_insights Sample.str) Cases.empty_reading)
                 = Raise KeyError) by (vm_compute; reflexivity).
  split; [reflexivity|]. split; [vm_compute; reflexivity|].
  split; [exact Hrun|].
  split; [intros [rec H]; rewrite Hrun in H; discriminate|].
  vm_compute; reflexivity.
Qed.

(** C6, counterexample.  The inflation file parses but does not follow the
    schema: it has [change] and no [current].  No default is substituted:
    the first [try] block yields the file's content, and the run raises
    [KeyError]. *)
Lemma missing_inflation_uses_default_counterexample :
  disk Cases.change_only "data/inflation.json" = Json (JDict [("change", JFloat Float64.f0_0)]) /\
  fst (load_inflation Cases.change_only (boot Cases.change_only)) =
    Ret (JDict [("change", JFloat Float64.f0_0)]) /\
  fst (load_inflation Cases.change_only (boot Cases.change_only)) <> Ret default_inflation /\
  fst (run (generate_insights Sample.str) Cases.change_only) = Raise KeyError /\
  ~ (exists rec, fst (run (generate_insights Sample.str) Cases.change_only) = Ret rec).
Proof.
  assert (Hrun : fst (run (generate_insights Sample.str) Cases.change_only)
                 = Raise KeyError) by (vm_compute; reflexivity).
  split; [reflexivity|]. split; [vm_compute; reflexivity|].
  split; [vm_compute; discriminate|].
  split; [exact Hrun|].
  intros [rec H]; rewrite Hrun in H; discriminate.
Qed.
